(** * NanoSageEG: the report aggregator (aggregator.py)

    A shallow embedding of [_write_markdown_report], [_write_asciidoc_report]
    and [aggregate_results], and the properties of the report subsystem
    checked against it.

    Python values are untyped, so the embedding carries a small universe of
    values ([pyval]) and the exceptions the renderers can raise.  The
    universe holds what this program builds and consumes: [None], integers,
    strings, lists and dictionaries with string keys.  Booleans and floats
    never occur in a report and are left out.  A string holds the UTF-8
    bytes of a Python text: [strip] knows the white space of [str.isspace],
    above 127 too, and [py_repr] keeps a byte above 127 as it is.  The
    interpreter is a 64-bit CPython; how much memory it has is not part of
    the model, and neither is the depth to which [repr] can walk a value:
    the properties that depend on them are stated for levels up to
    [max_level] and for flat values. *)

From Stdlib Require Import String Ascii List ZArith Lia Bool DecimalString.
From Stdlib Require Import Orders Sorting.Mergesort Sorting.Sorted Sorting.Permutation.
Import ListNotations.
Local Open Scope string_scope.
Set Warnings "-register-all".

(** ** Python values *)

Inductive pyval : Type :=
| PNone
| PInt (z : Z)
| PStr (s : string)
| PList (l : list pyval)
| PDict (d : list (string * pyval)).

(** A dictionary keeps insertion order (the order [repr] prints and [items()]
    iterates); its keys are distinct. *)
Definition pydict : Type := list (string * pyval).

(** The exceptions of the program: those the renderers and the builder
    raise themselves, and those a call to the operating system raises when
    it fails, an [OSError] named by its class ([FileNotFoundError],
    [PermissionError], ...) or the [ValueError] of a path that holds a NUL
    character. *)
Inductive pyexc : Type :=
| KeyError (key : string)
| TypeError
| AttributeError
| OverflowError
| ValueError
| OSError (kind : string).

Definition LF : string := String "010"%char "".
Definition DQUOTE : ascii := "034"%char.
Definition SQUOTE : ascii := "039"%char.
Definition BACKSLASH : ascii := "092"%char.

(** [d.get(k)] as an option, [d.get(k, dflt)], [d[k] = v] and [k in d]. *)
Fixpoint dict_get (d : pydict) (k : string) : option pyval :=
  match d with
  | [] => None
  | (k', v) :: rest => if String.eqb k' k then Some v else dict_get rest k
  end.

Definition get_default (d : pydict) (k : string) (dflt : pyval) : pyval :=
  match dict_get d k with Some v => v | None => dflt end.

(** [d.get(k)] with no default gives [None] for a missing key. *)
Definition get_none (d : pydict) (k : string) : pyval := get_default d k PNone.

Definition dict_mem (d : pydict) (k : string) : bool :=
  match dict_get d k with Some _ => true | None => false end.

Fixpoint dict_set (d : pydict) (k : string) (v : pyval) : pydict :=
  match d with
  | [] => [(k, v)]
  | (k', v') :: rest =>
      if String.eqb k' k then (k', v) :: rest else (k', v') :: dict_set rest k v
  end.

(** Truth value of an object in a condition. *)
Definition truthy (v : pyval) : bool :=
  match v with
  | PNone => false
  | PInt z => negb (Z.eqb z 0)
  | PStr s => negb (String.eqb s "")
  | PList l => match l with [] => false | _ => true end
  | PDict d => match d with [] => false | _ => true end
  end.

Definition isinstance_list (v : pyval) : bool :=
  match v with PList _ => true | _ => false end.
Definition isinstance_dict (v : pyval) : bool :=
  match v with PDict _ => true | _ => false end.
Definition isinstance_str (v : pyval) : bool :=
  match v with PStr _ => true | _ => false end.

(** [==] on values.  Lists compare element by element, dictionaries
    whatever the order of their keys. *)
Fixpoint py_eq (a b : pyval) {struct a} : bool :=
  match a, b with
  | PNone, PNone => true
  | PInt x, PInt y => Z.eqb x y
  | PStr x, PStr y => String.eqb x y
  | PList la, PList lb =>
      (fix eq_list (xs : list pyval) (ys : list pyval) {struct xs} : bool :=
         match xs, ys with
         | [], [] => true
         | x :: xs', y :: ys' => py_eq x y && eq_list xs' ys'
         | _, _ => false
         end) la lb
  | PDict da, PDict db =>
      Nat.eqb (length da) (length db) &&
      (fix sub_dict (xs : list (string * pyval)) {struct xs} : bool :=
         match xs with
         | [] => true
         | (k, v) :: xs' =>
             match dict_get db k with
             | Some w => py_eq v w && sub_dict xs'
             | None => false
             end
         end) da
  | _, _ => false
  end.

(** ** Text: [str], [repr], [strip], [replace] and string repetition *)

Definition hex_digit (n : nat) : ascii :=
  match n with
  | 0 => "0" | 1 => "1" | 2 => "2" | 3 => "3" | 4 => "4" | 5 => "5"
  | 6 => "6" | 7 => "7" | 8 => "8" | 9 => "9" | 10 => "a" | 11 => "b"
  | 12 => "c" | 13 => "d" | 14 => "e" | _ => "f"
  end%char.

Fixpoint contains_char (c : ascii) (s : string) : bool :=
  match s with
  | EmptyString => false
  | String c' rest => Ascii.eqb c c' || contains_char c rest
  end.

(** The quote [repr] puts around a string: double quotes only when the text
    holds a single quote and no double quote. *)
Definition repr_quote (s : string) : ascii :=
  if contains_char SQUOTE s && negb (contains_char DQUOTE s)
  then DQUOTE else SQUOTE.

Definition repr_char (q c : ascii) : string :=
  let n := nat_of_ascii c in
  if Ascii.eqb c q || Ascii.eqb c BACKSLASH then String BACKSLASH (String c "")
  else if Nat.eqb n 9 then String BACKSLASH "t"
  else if Nat.eqb n 10 then String BACKSLASH "n"
  else if Nat.eqb n 13 then String BACKSLASH "r"
  else if Nat.ltb n 32 || Nat.eqb n 127
       then String BACKSLASH
              (String "x" (String (hex_digit (n / 16)) (String (hex_digit (n mod 16)) "")))
  else String c "".

Fixpoint repr_body (q : ascii) (s : string) : string :=
  match s with
  | EmptyString => ""
  | String c rest => repr_char q c ++ repr_body q rest
  end.

Definition repr_str (s : string) : string :=
  let q := repr_quote s in
  String q (repr_body q s ++ String q "").

Definition str_of_int (z : Z) : string := NilZero.string_of_int (Z.to_int z).

Fixpoint py_repr (v : pyval) : string :=
  match v with
  | PNone => "None"
  | PInt z => str_of_int z
  | PStr s => repr_str s
  | PList l =>
      "[" ++ String.concat ", " (map py_repr l) ++ "]"
  | PDict d =>
      "{" ++ String.concat ", "
               (map (fun kv => repr_str (fst kv) ++ ": " ++ py_repr (snd kv)) d)
          ++ "}"
  end.

(** What an f-string field [{v}] prints: the text itself for a string, the
    [repr] for everything else. *)
Definition py_str (v : pyval) : string :=
  match v with
  | PStr s => s
  | _ => py_repr v
  end.

(** The white space of [str.isspace] below 128. *)
Definition is_space (c : ascii) : bool :=
  let n := nat_of_ascii c in
  (Nat.leb 9 n && Nat.leb n 13) || (Nat.leb 28 n && Nat.leb n 32).

(** The white space above 127, by its UTF-8 bytes: U+0085 and U+00A0 take
    two bytes; U+1680, U+2000 to U+200A, U+2028, U+2029, U+202F, U+205F and
    U+3000 take three. *)
Definition is_space2 (a b : ascii) : bool :=
  Nat.eqb (nat_of_ascii a) 194
  && (Nat.eqb (nat_of_ascii b) 133 || Nat.eqb (nat_of_ascii b) 160).

Definition is_space3 (a b c : ascii) : bool :=
  let x := nat_of_ascii a in
  let y := nat_of_ascii b in
  let z := nat_of_ascii c in
  (Nat.eqb x 225 && Nat.eqb y 154 && Nat.eqb z 128)
  || (Nat.eqb x 226 && Nat.eqb y 128
      && ((Nat.leb 128 z && Nat.leb z 138)
          || Nat.eqb z 168 || Nat.eqb z 169 || Nat.eqb z 175))
  || (Nat.eqb x 226 && Nat.eqb y 129 && Nat.eqb z 159)
  || (Nat.eqb x 227 && Nat.eqb y 128 && Nat.eqb z 128).

Fixpoint lstrip (s : string) : string :=
  match s with
  | EmptyString => ""
  | String a r1 =>
      if is_space a then lstrip r1
      else
        match r1 with
        | EmptyString => s
        | String b r2 =>
            if is_space2 a b then lstrip r2
            else
              match r2 with
              | EmptyString => s
              | String c r3 => if is_space3 a b c then lstrip r3 else s
              end
        end
  end.

Fixpoint rev_onto (s acc : string) : string :=
  match s with
  | EmptyString => acc
  | String c rest => rev_onto rest (String c acc)
  end.

Definition string_rev (s : string) : string := rev_onto s "".

(** [lstrip] on the bytes read from the last to the first. *)
Fixpoint lstrip_rev (s : string) : string :=
  match s with
  | EmptyString => ""
  | String a r1 =>
      if is_space a then lstrip_rev r1
      else
        match r1 with
        | EmptyString => s
        | String b r2 =>
            if is_space2 b a then lstrip_rev r2
            else
              match r2 with
              | EmptyString => s
              | String c r3 => if is_space3 c b a then lstrip_rev r3 else s
              end
        end
  end.

Definition rstrip (s : string) : string := string_rev (lstrip_rev (string_rev s)).

Definition strip (s : string) : string := rstrip (lstrip s).

(** [s.replace('**', '*')]: left to right, without overlap. *)
Fixpoint replace_bold (s : string) : string :=
  match s with
  | EmptyString => ""
  | String c rest =>
      match rest with
      | String c' rest' =>
          if Ascii.eqb c "*" && Ascii.eqb c' "*"
          then String "*" (replace_bold rest')
          else String c (replace_bold rest)
      | EmptyString => String c ""
      end
  end.

(** [c * n] for a one-character string: the empty string when [n <= 0]. *)
Fixpoint repeat_char (c : ascii) (n : nat) : string :=
  match n with
  | O => ""
  | S n' => String c (repeat_char c n')
  end.

Fixpoint startswith (p s : string) : bool :=
  match p with
  | EmptyString => true
  | String a p' =>
      match s with
      | EmptyString => false
      | String b s' => Ascii.eqb a b && startswith p' s'
      end
  end.

Fixpoint endswith_char (c : ascii) (s : string) : bool :=
  match s with
  | EmptyString => false
  | String c' EmptyString => Ascii.eqb c c'
  | String _ rest => endswith_char c rest
  end.

(** [os.path.join(a, b)] of posixpath: an absolute [b] replaces [a]. *)
Definition os_path_join (a b : string) : string :=
  if startswith "/" b then b
  else if String.eqb a "" || endswith_char "/" a then a ++ b
  else a ++ "/" ++ b.

(** ** Output and exceptions

    A computation appends to an output (the chunks written to a file, the
    lines of a report, the calls made to the operating system) and either
    returns or raises; what was emitted before an exception stays. *)

Definition W (E A : Type) : Type := (list E * (pyexc + A))%type.

Definition ret {E A : Type} (a : A) : W E A := ([], inr a).
Definition raise {E A : Type} (e : pyexc) : W E A := ([], inl e).
Definition emit {E : Type} (x : E) : W E unit := ([x], inr tt).

Definition bind {E A B : Type} (m : W E A) (f : A -> W E B) : W E B :=
  match m with
  | (out, inl e) => (out, inl e)
  | (out, inr a) => ((out ++ fst (f a))%list, snd (f a))
  end.

Declare Scope w_scope.
Delimit Scope w_scope with W.
Notation "x <- m ;; k" := (bind m (fun x => k))
  (at level 61, m at next level, right associativity) : w_scope.
Notation "m ;;; k" := (bind m (fun _ => k))
  (at level 61, right associativity) : w_scope.
Local Open Scope w_scope.

Definition output {E A : Type} (m : W E A) : list E := fst m.
Definition result {E A : Type} (m : W E A) : pyexc + A := snd m.

(** [for x in l: body(x)] *)
Fixpoint for_each {E A : Type} (l : list A) (body : A -> W E unit) : W E unit :=
  match l with
  | [] => ret tt
  | x :: rest => body x ;;; for_each rest body
  end.

(** [when c: m] *)
Definition when {E : Type} (c : bool) (m : W E unit) : W E unit :=
  if c then m else ret tt.

(** [sys.maxsize], the largest count a sequence can be repeated. *)
Definition sys_maxsize : Z := 9223372036854775807.

(** ['#' * level]: only an integer multiplies a string, and a count above
    [sys.maxsize] does not fit an index.  Below it, the repetition is the
    string of that many marks as long as the interpreter can allocate it;
    where that ends depends on the machine, and the properties on headings
    are stated up to [max_level]. *)
Definition py_mul {E : Type} (c : ascii) (n : pyval) : W E string :=
  match n with
  | PInt z =>
      if Z.leb z sys_maxsize then ret (repeat_char c (Z.to_nat z))
      else raise OverflowError
  | _ => raise TypeError
  end.

(** [level + 1] *)
Definition py_succ {E : Type} (n : pyval) : W E pyval :=
  match n with
  | PInt z => ret (PInt (z + 1))
  | _ => raise TypeError
  end.

(** [content.strip()] of a value that is neither a list nor a dictionary. *)
Definition py_strip {E : Type} (v : pyval) : W E string :=
  match v with
  | PStr s => ret (strip s)
  | _ => raise AttributeError
  end.

Fixpoint chars (s : string) : list pyval :=
  match s with
  | EmptyString => []
  | String c rest => PStr (String c "") :: chars rest
  end.

(** The elements a [for] loop visits. *)
Definition py_iter {E : Type} (v : pyval) : W E (list pyval) :=
  match v with
  | PList l => ret l
  | PDict d => ret (map (fun kv => PStr (fst kv)) d)
  | PStr s => ret (chars s)
  | _ => raise TypeError
  end.

(** The receiver of [item.get(...)]. *)
Definition as_dict {E : Type} (v : pyval) : W E pydict :=
  match v with
  | PDict d => ret d
  | _ => raise AttributeError
  end.

(** ** _write_markdown_report *)

(** One structured item of the Markdown report (lines 23-28). *)
Definition md_item (content : pydict) (item : pyval) : W string unit :=
  i <- as_dict item ;;
  emit ("- **" ++ py_str (get_default content "item_prefix" (PStr "URL")) ++ ":** "
          ++ py_str (get_default i "primary" (PStr "")) ++ LF) ;;;
  when (truthy (get_none i "secondary"))
    (emit ("  - **" ++ py_str (get_default content "secondary_prefix" (PStr "Snippet"))
             ++ ":** " ++ py_str (get_default i "secondary" (PStr "")) ++ LF)) ;;;
  when (truthy (get_none i "tertiary"))
    (emit ("  - **" ++ py_str (get_default content "tertiary_prefix" (PStr "Tertiary"))
             ++ ":** " ++ py_str (get_default i "tertiary" (PStr "")) ++ LF)) ;;;
  emit LF.

(** The [if title:] of line 14. *)
Definition md_heading (level title : pyval) : W string unit :=
  when (truthy title)
    (marks <- py_mul "#" level ;;
     emit (marks ++ " " ++ py_str title ++ LF ++ LF)).

(** The [if]/[elif] chain of lines 17-32. *)
Definition md_content (title content : pyval) : W string unit :=
  match content with
  | PList l =>
      for_each l (fun item => emit ("- " ++ py_str item ++ LF)) ;;;
      emit LF
  | PDict d =>
      items <- py_iter (get_default d "items" (PList [])) ;;
      for_each items (md_item d)
  | _ =>
      if truthy content then
        s <- py_strip content ;;
        emit (s ++ LF ++ LF)
      else
        when (truthy title) (emit ("_No content for this section._" ++ LF ++ LF))
  end.

(** The body of the loop over [report_data]. *)
Definition md_section (section : pydict) : W string unit :=
  let level := get_default section "level" (PInt 1) in
  let title := get_default section "title" (PStr "") in
  let content := get_default section "content" (PStr "") in
  md_heading level title ;;;
  md_content title content.

(** The chunks handed to [f.write], in order. *)
Definition markdown_chunks (report_data : list pydict) : W string unit :=
  for_each report_data md_section.

(** ** Calls to the operating system

    [Makedirs] is [os.makedirs(path, exist_ok=...)]; [WriteFile] is a file
    opened for writing, with everything written to it before it is closed.
    The functions below list the calls they make; which of them the
    operating system lets succeed is the matter of [run_on], further
    down. *)

Inductive io_event : Type :=
| Makedirs (path : string) (exist_ok : bool)
| WriteFile (path : string) (text : string).

(** The file is opened (and truncated) before the first section is
    rendered, so it holds whatever was written when an exception ends the
    loop. *)
Definition _write_markdown_report (report_data : list pydict) (file_path : string)
  : W io_event unit :=
  let r := markdown_chunks report_data in
  ([WriteFile file_path (String.concat "" (output r))], result r).

(** ** _write_asciidoc_report *)

(** Line 41: the title of the first section whose [level] key is 1; the
    subscript raises when that section has no [title] key. *)
Fixpoint first_h1_title (report_data : list pydict) : W string pyval :=
  match report_data with
  | [] => ret PNone
  | s :: rest =>
      if py_eq (get_none s "level") (PInt 1)
      then match dict_get s "title" with
           | Some t => ret t
           | None => raise (KeyError "title")
           end
      else first_h1_title rest
  end.

(** The condition of line 51. *)
Definition is_first_h1 (h1 : pyval) (skipped : bool) (level title : pyval) : bool :=
  py_eq level (PInt 1) && py_eq title h1 && negb skipped.

(** Lines 51-56; the result is the new value of [first_h1_skipped]. *)
Definition adoc_heading (h1 : pyval) (skipped : bool) (level title : pyval)
  : W string bool :=
  if is_first_h1 h1 skipped level title then ret true
  else if truthy title then
    n <- py_succ level ;;
    marks <- py_mul "=" n ;;
    emit (marks ++ " " ++ py_str title ++ LF) ;;;
    ret skipped
  else ret skipped.

(** One structured item of the AsciiDoc report (lines 67-76). *)
Definition adoc_item (content : pydict) (item : pyval) : W string unit :=
  i <- as_dict item ;;
  let primary := get_default i "primary" (PStr "") in
  let secondary := get_default i "secondary" (PStr "") in
  let tertiary := get_default i "tertiary" (PStr "") in
  emit (py_str (get_default content "item_prefix" (PStr "URL")) ++ ":: " ++ py_str primary) ;;;
  when (truthy secondary)
    (emit (py_str (get_default content "secondary_prefix" (PStr "Snippet"))
             ++ "::: " ++ py_str secondary)) ;;;
  when (truthy tertiary)
    (emit (py_str (get_default content "tertiary_prefix" (PStr "Tertiary"))
             ++ ":::: " ++ py_str tertiary)) ;;;
  emit "".

(** The branch of the [if]/[elif] chain of lines 59-85 that a section
    takes, with the values the branch works on. *)
Inductive adoc_branch : Type :=
| BrList (items : list pyval)
| BrDictItems (content : pydict) (items : pyval)
| BrDictStr (content : pyval)
| BrDictSkip
| BrText (content : pyval)
| BrPlaceholder
| BrSkip.

Definition adoc_dispatch (h1 : pyval) (skipped : bool) (level title content : pyval)
  : adoc_branch :=
  match content with
  | PList l => BrList l
  | PDict d =>
      let items := get_default d "items" (PList []) in
      if truthy items then BrDictItems d items
      else if isinstance_str content then BrDictStr content
      else BrDictSkip
  | _ =>
      if truthy content then BrText content
      else if truthy title
                && negb (py_eq level (PInt 1) && py_eq title h1 && skipped)
      then BrPlaceholder
      else BrSkip
  end.

Definition adoc_content (h1 : pyval) (skipped : bool) (level title content : pyval)
  : W string unit :=
  match adoc_dispatch h1 skipped level title content with
  | BrList l =>
      for_each l (fun item => emit ("* " ++ py_str item)) ;;;
      emit ""
  | BrDictItems d items =>
      l <- py_iter items ;;
      for_each l (adoc_item d)
  | BrDictStr c =>
      s <- py_strip c ;;
      emit (s ++ LF)
  | BrDictSkip => ret tt
  | BrText c =>
      s <- py_strip c ;;
      emit (replace_bold s ++ LF)
  | BrPlaceholder => emit ("_No content for this section._" ++ LF)
  | BrSkip => ret tt
  end.

(** The body of the loop of line 45, threading [first_h1_skipped]. *)
Definition adoc_section (h1 : pyval) (skipped : bool) (section : pydict)
  : W string bool :=
  let level := get_default section "level" (PInt 1) in
  let title := get_default section "title" (PStr "") in
  let content := get_default section "content" (PStr "") in
  skipped' <- adoc_heading h1 skipped level title ;;
  adoc_content h1 skipped' level title content ;;;
  ret skipped'.

Fixpoint adoc_loop (h1 : pyval) (skipped : bool) (report_data : list pydict)
  : W string bool :=
  match report_data with
  | [] => ret skipped
  | section :: rest =>
      skipped' <- adoc_section h1 skipped section ;;
      adoc_loop h1 skipped' rest
  end.

(** [adoc_lines] when the loop ends. *)
Definition adoc_lines (report_data : list pydict) : W string unit :=
  h1 <- first_h1_title report_data ;;
  when (truthy h1) (emit ("= " ++ py_str h1 ++ LF)) ;;;
  adoc_loop h1 false report_data ;;;
  ret tt.

(** The file is opened only after every line was produced: an exception in
    the loop leaves no file. *)
Definition _write_asciidoc_report (report_data : list pydict) (file_path : string)
  : W io_event unit :=
  match adoc_lines report_data with
  | (lines, inr _) => emit (WriteFile file_path (String.concat LF lines))
  | (_, inl e) => raise e
  end.

(** ** aggregate_results *)

(** Line 111. *)
Definition final_report_data (final_answer : string) : list pydict :=
  [ [("level", PInt 1);
     ("title", PStr "Final Aggregated Answer (RAG)");
     ("content", PStr final_answer)] ].

(** Lines 126-129. *)
Definition web_item (item : pydict) : pyval :=
  PDict [("primary", get_default item "url" (PStr ""));
         ("secondary", get_default item "snippet" (PStr ""))].

(** Lines 123-131: a list is true when it is not empty. *)
Definition web_section_content (web_results : list pydict) : pyval :=
  match web_results with
  | [] => PStr "_No web results found_"
  | _ =>
      PDict [("items", PList (map web_item web_results));
             ("item_prefix", PStr "URL");
             ("secondary_prefix", PStr "Snippet")]
  end.

(** Lines 146-150. *)
Definition grouped_item (item : pydict) : pyval :=
  PDict [("primary", get_default item "url" (PStr ""));
         ("secondary", get_default item "file_path" (PStr ""));
         ("tertiary", get_default item "content_type" (PStr ""))].

(** Lines 139-152: the sub-section of one domain. *)
Definition domain_section (group : string * list pydict) : pyval :=
  let domain_content :=
    PDict [("items", PList (map grouped_item (snd group)));
           ("item_prefix", PStr "URL");
           ("secondary_prefix", PStr "File Path");
           ("tertiary_prefix", PStr "Content Type")] in
  PDict [("level", PInt 3);
         ("title", PStr ("Domain: " ++ fst group));
         ("content", domain_content)].

(** Lines 136-153: the sections this step appends. *)
Definition grouped_sections (grouped_web_results : option (list (string * list pydict)))
  : list pydict :=
  match grouped_web_results with
  | None | Some [] => []
  | Some groups =>
      [ [("level", PInt 2);
         ("title", PStr "Grouped Web Results by Domain");
         ("content", PList (map domain_section groups))] ]
  end.

(** Lines 161-166, from the metadata of one local result. *)
Definition local_item (meta : pydict) : pydict :=
  let item_data := [("primary", get_default meta "file_path" (PStr ""))] in
  if dict_mem meta "page" then
    dict_set (dict_set item_data "secondary" (get_none meta "page"))
             "tertiary" (get_default meta "snippet" (PStr ""))
  else
    dict_set item_data "secondary" (get_default meta "snippet" (PStr "")).

(** Lines 160-167: [meta.get] needs a dictionary. *)
Definition local_entry {E : Type} (doc : pydict) : W E pyval :=
  meta <- as_dict (get_default doc "metadata" (PDict [])) ;;
  ret (PDict (local_item meta)).

Fixpoint local_entries {E : Type} (local_results : list pydict) : W E (list pyval) :=
  match local_results with
  | [] => ret []
  | doc :: rest =>
      item <- local_entry doc ;;
      items <- local_entries rest ;;
      ret (item :: items)
  end.

(** Lines 157-170. *)
Definition local_section_content {E : Type} (local_results : list pydict) : W E pyval :=
  match local_results with
  | [] => ret (PStr "_No local results found_")
  | _ =>
      items <- local_entries local_results ;;
      ret (PDict [("items", PList items);
                  ("item_prefix", PStr "File");
                  ("secondary_prefix", PStr "Page");
                  ("tertiary_prefix", PStr "Snippet")])
  end.

(** Lines 175-180: an optional text adds its section when it is given and
    not empty. *)
Definition optional_section (title : string) (text : option string) : list pydict :=
  match text with
  | Some s =>
      if truthy (PStr s)
      then [ [("level", PInt 2); ("title", PStr title); ("content", PStr s)] ]
      else []
  | None => []
  end.

(** Lines 116-180. *)
Definition aggregator_report_data {E : Type}
    (query_id enhanced_query : string)
    (web_results local_results : list pydict)
    (final_answer : string)
    (grouped_web_results : option (list (string * list pydict)))
    (previous_results follow_up_conversation : option string)
  : W E (list pydict) :=
  let head :=
    [ [("level", PInt 1);
       ("title", PStr ("Aggregated Results for Query ID: " ++ query_id))];
      [("level", PInt 2); ("title", PStr "Enhanced Query");
       ("content", PStr enhanced_query)];
      [("level", PInt 1); ("title", PStr "Final Aggregated Answer (RAG)");
       ("content", PStr final_answer)] ] in
  let web :=
    [ [("level", PInt 2); ("title", PStr "Web Search Results");
       ("content", web_section_content web_results)] ] in
  let grouped := grouped_sections grouped_web_results in
  local_content <- local_section_content local_results ;;
  let local :=
    [ [("level", PInt 2); ("title", PStr "Local Retrieval Results");
       ("content", local_content)] ] in
  ret (head ++ web ++ grouped ++ local
         ++ optional_section "Previous Results Integrated" previous_results
         ++ optional_section "Follow-Up Conversation" follow_up_conversation)%list.

(** [os.path.join] takes strings only. *)
Definition as_path {E : Type} (v : pyval) : W E string :=
  match v with
  | PStr s => ret s
  | _ => raise TypeError
  end.

Definition aggregate_results
    (query_id enhanced_query : string)
    (web_results local_results : list pydict)
    (final_answer : string)
    (config : pydict)
    (grouped_web_results : option (list (string * list pydict)))
    (previous_results follow_up_conversation : option string)
  : W io_event string :=
  base_dir <- as_path (get_default config "results_base_dir" (PStr "results")) ;;
  let output_dir := os_path_join base_dir query_id in
  emit (Makedirs output_dir true) ;;;
  let final := final_report_data final_answer in
  full <- aggregator_report_data query_id enhanced_query web_results local_results
            final_answer grouped_web_results previous_results follow_up_conversation ;;
  let final_report_md_path := os_path_join output_dir "final_report.md" in
  let final_report_adoc_path := os_path_join output_dir "final_report.adoc" in
  let aggregator_md_path := os_path_join output_dir (query_id ++ "_output.md") in
  let aggregator_adoc_path := os_path_join output_dir (query_id ++ "_output.adoc") in
  _write_markdown_report final final_report_md_path ;;;
  _write_asciidoc_report final final_report_adoc_path ;;;
  _write_markdown_report full aggregator_md_path ;;;
  _write_asciidoc_report full aggregator_adoc_path ;;;
  ret aggregator_md_path.

(** * main.py

    [load_config], [list_gemini_models] and the part of [main] that runs
    before the search session.  What the file system, the YAML parser and
    the Gemini client answer is given to the model; what is printed is the
    output, each text with the stream it goes to ([print] adds the end of
    line). *)

Inductive stream : Type := Stdout | Stderr.

Definition printed : Type := (stream * string)%type.

Definition print (text : string) : W printed unit := emit (Stdout, text).
Definition print_err (text : string) : W printed unit := emit (Stderr, text).

(** What [open] and [yaml.safe_load] do with the configuration file: a
    value, a [yaml.YAMLError], or another exception, with its message. *)
Inductive load_outcome : Type :=
| Loaded (config : pyval)
| YamlError (message : string)
| OtherError (message : string).

(** Lines 19-33. *)
Definition load_config (is_file : bool) (loaded : load_outcome) (config_path : string)
  : W printed pyval :=
  if negb is_file then
    print_err ("[WARN] Config file not found at " ++ config_path ++ ". Using defaults.") ;;;
    ret (PDict [])
  else
    match loaded with
    | Loaded config => ret (if truthy config then config else PDict [])
    | YamlError e =>
        print_err ("[ERROR] Error parsing config file " ++ config_path ++ ": " ++ e) ;;;
        ret (PDict [])
    | OtherError e =>
        print_err ("[ERROR] Unexpected error loading config file " ++ config_path
                     ++ ": " ++ e) ;;;
        ret (PDict [])
    end.

(** Line 82: [config.get("gemini", {}).get("api_key", None)]. *)
Definition gemini_api_key {E : Type} (config : pyval) : W E pyval :=
  c <- as_dict config ;;
  g <- as_dict (get_default c "gemini" (PDict [])) ;;
  ret (get_default g "api_key" PNone).

(** A model as [genai.list_models()] yields it. *)
Record gemini_model : Type := {
  name : string;
  supported_generation_methods : list string
}.

(** What the Gemini client does: [genai.configure] raises, or the listing
    raises, or the models are listed. *)
Inductive api_outcome : Type :=
| ConfigureError (message : string)
| ListError (message : string)
| Models (models : list gemini_model).

Module StringOrder <: Orders.TotalLeBool.
Definition t := string.
Definition leb := String.leb.
Theorem leb_total : forall x y, leb x y = true \/ leb y x = true.
Proof. exact String.leb_total. Qed.
End StringOrder.

(** [sorted] on a list of strings. *)
Module StringSort := Mergesort.Sort StringOrder.

(** Lines 50-55: the names kept, in the order of the listing. *)
Definition rag_models (models : list gemini_model) : list string :=
  map (fun m => "gemini/" ++ name m)
      (filter (fun m => existsb (String.eqb "generateContent")
                          (supported_generation_methods m)) models).

(** Lines 35-63.  The result is [None] or the list of names. *)
Definition list_gemini_models (GEMINI_AVAILABLE : bool) (api : api_outcome)
    (api_key : pyval) : W printed (option (list string)) :=
  if negb GEMINI_AVAILABLE then
    print_err "[ERROR] google-generativeai library not installed. Cannot list models." ;;;
    print_err "Please install it: pip install google-generativeai" ;;;
    ret None
  else if negb (truthy api_key) then
    print_err "[ERROR] Gemini API key not found in config. Cannot list models." ;;;
    print_err ("Please add 'gemini:" ++ LF ++ "  api_key: YOUR_API_KEY' to your config.yaml") ;;;
    ret None
  else
    match api with
    | ConfigureError e =>
        print_err ("[ERROR] Failed to list Gemini models: " ++ e) ;;;
        ret None
    | ListError e =>
        print "[INFO] Fetching available Gemini models..." ;;;
        print_err ("[ERROR] Failed to list Gemini models: " ++ e) ;;;
        ret None
    | Models ms =>
        print "[INFO] Fetching available Gemini models..." ;;;
        let models := rag_models ms in
        print (LF ++ "[INFO] Found models suitable for RAG (use with --rag_model):") ;;;
        for_each (StringSort.sort models) (fun model_name => print ("- " ++ model_name)) ;;;
        print (LF ++ "Example: --rag_model gemini/models/gemini-1.5-flash") ;;;
        ret (Some models)
    end.

(** How the part of [main] before the search session ends: [sys.exit(0)]
    after the listing, or on to the session with the key. *)
Inductive main_step : Type :=
| Exit (status : Z)
| Session (config gemini_key : pyval).

(** Lines 79-88. *)
Definition main_before_session (is_file : bool) (loaded : load_outcome)
    (GEMINI_AVAILABLE : bool) (api : api_outcome) (config_path rag_model : string)
  : W printed main_step :=
  config <- load_config is_file loaded config_path ;;
  key <- gemini_api_key config ;;
  if String.eqb rag_model "gemini" then
    print "[INFO] '--rag_model gemini' specified. Listing available models..." ;;;
    list_gemini_models GEMINI_AVAILABLE api key ;;;
    ret (Exit 0)
  else ret (Session config key).

Definition on_stream (st : stream) (p : printed) : bool :=
  match st, fst p with
  | Stdout, Stdout | Stderr, Stderr => true
  | _, _ => false
  end.

(** ** Shapes of documents and example reports *)

(** The pre-scan of line 41 passes over a section: its [level] key is
    missing or is not 1. *)
Definition not_h1 (section : pydict) : Prop :=
  py_eq (get_none section "level") (PInt 1) = false.

(** A section that states a level other than 1. *)
Definition level_not_1 (section : pydict) : Prop :=
  exists v, dict_get section "level" = Some v /\ py_eq v (PInt 1) = false.

(** The grouped section [aggregate_results] builds for one domain with one
    result. *)
Definition nested_doc : list pydict :=
  grouped_sections
    (Some [("ex.com",
            [ [("url", PStr "u1"); ("file_path", PStr "f");
               ("content_type", PStr "t")] ])]).

(** A report whose first level-1 section has no [title] key. *)
Definition untitled_h1_doc : list pydict :=
  [ [("level", PInt 1); ("content", PStr "x")] ].

(** Reports whose first level-1 section has an empty title and whose second
    level-1 section is titled. *)
Definition empty_then_titled_doc : list pydict :=
  [ [("level", PInt 1); ("title", PStr ""); ("content", PStr "intro")];
    [("level", PInt 1); ("title", PStr "Report"); ("content", PStr "body")] ].

Definition blank_then_summary_doc : list pydict :=
  [ [("level", PInt 1); ("title", PStr "")];
    [("level", PInt 1); ("title", PStr "Summary"); ("content", PStr "x")] ].

(** The document-title line of the AsciiDoc report is [= T]. *)
Definition has_title_line (report_data : list pydict) (T : string) : Prop :=
  exists body, output (adoc_lines report_data) = ("= " ++ T ++ LF) :: body.

(** Reports the renderers accept: an integer level up to [max_level], a
    [title] key, and a content that is text, a list, nothing, or a
    dictionary whose [items] is a list of dictionaries. *)
Definition items_ok (content : pydict) : bool :=
  match get_default content "items" (PList []) with
  | PList l => forallb isinstance_dict l
  | _ => false
  end.

Definition content_ok (content : pyval) : bool :=
  match content with
  | PNone | PStr _ | PList _ => true
  | PInt z => Z.eqb z 0
  | PDict d => items_ok d
  end.

(** The largest level the properties on headings are stated for. *)
Definition max_level : Z := 65535.

Definition section_ok (section : pydict) : bool :=
  match get_default section "level" (PInt 1) with
  | PInt z => Z.leb z max_level
  | _ => false
  end
  && dict_mem section "title"
  && content_ok (get_default section "content" (PStr "")).

(** A local result whose [metadata], when given, is a dictionary. *)
Definition metadata_ok (doc : pydict) : bool :=
  isinstance_dict (get_default doc "metadata" (PDict [])).

(** A base directory that is not empty and has no trailing slash; a query
    identifier that is not empty and neither starts nor ends with a slash. *)
Definition plain_dir (base_dir : string) : bool :=
  negb (String.eqb base_dir "") && negb (endswith_char "/" base_dir).

Definition relative_name (query_id : string) : bool :=
  negb (String.eqb query_id "") && negb (startswith "/" query_id)
  && negb (endswith_char "/" query_id).

Definition event_path (ev : io_event) : string :=
  match ev with
  | Makedirs path _ => path
  | WriteFile path _ => path
  end.

(** ** Shapes used by the further properties *)


(** A text made of white space only. *)
Fixpoint all_space (s : string) : bool :=
  match s with
  | EmptyString => true
  | String c rest => is_space c && all_space rest
  end.




(** The first section the pre-scan stops at has no title. *)
Definition untitled_first_h1 (report_data : list pydict) : Prop :=
  exists pre s post,
    report_data = (pre ++ s :: post)%list
    /\ Forall not_h1 pre
    /\ py_eq (get_none s "level") (PInt 1) = true
    /\ dict_get s "title" = None.

Definition is_write (ev : io_event) : bool :=
  match ev with WriteFile _ _ => true | Makedirs _ _ => false end.

(** A computation that raises no [KeyError]. *)
Definition no_key_error {E A : Type} (m : W E A) : Prop :=
  forall k, result m <> inl (KeyError k).


(** ** The calls on an operating system

    The writers and [aggregate_results] above list the calls they make
    when every call succeeds.  A call can fail: the directory cannot be
    made, a file cannot be opened.  The operating system is given by what
    it answers to a call after the calls already done: nothing, or the
    exception the call raises.  A run makes the calls in order and ends at
    the first one that fails, with its exception, whatever would have come
    after.  For a file the call that fails is the opening: no file is
    written then.  A write that fails once the file is open (a full disk)
    is not described. *)

Definition os_answers : Type := list io_event -> io_event -> option pyexc.

Fixpoint run_events (os : os_answers) (done todo : list io_event)
  : list io_event * option pyexc :=
  match todo with
  | [] => (done, None)
  | ev :: rest =>
      match os done ev with
      | Some e => (done, Some e)
      | None => run_events os (done ++ [ev]) rest
      end
  end.

Definition run_on {A : Type} (os : os_answers) (m : W io_event A) : W io_event A :=
  match run_events os [] (output m) with
  | (done, Some e) => (done, inl e)
  | (done, None) => (done, result m)
  end.

(** Every call of the list succeeds, each after the ones before it. *)
Definition os_accepts (os : os_answers) (calls : list io_event) : Prop :=
  forall done ev rest, calls = (done ++ ev :: rest)%list -> os done ev = None.

(** An operating system on which every call succeeds. *)
Definition os_always : os_answers := fun _ _ => None.

Definition aggregate_results_on (os : os_answers)
    (query_id enhanced_query : string)
    (web_results local_results : list pydict)
    (final_answer : string)
    (config : pydict)
    (grouped_web_results : option (list (string * list pydict)))
    (previous_results follow_up_conversation : option string)
  : W io_event string :=
  run_on os (aggregate_results query_id enhanced_query web_results local_results
               final_answer config grouped_web_results previous_results
               follow_up_conversation).

(** ** Flat values

    A text, [None] or an integer of machine size: a value [str] prints
    without walking into a container. *)
Definition atom (v : pyval) : bool :=
  match v with
  | PNone | PStr _ => true
  | PInt z => Z.leb (Z.abs z) sys_maxsize
  | _ => false
  end.

Definition flat_record (r : pydict) : bool := forallb (fun kv => atom (snd kv)) r.

(** The metadata of a local result, and a local result whose metadata is a
    flat dictionary. *)
Definition metadata_of (doc : pydict) : pydict :=
  match get_default doc "metadata" (PDict []) with
  | PDict meta => meta
  | _ => []
  end.

Definition flat_local (doc : pydict) : bool :=
  metadata_ok doc && flat_record (metadata_of doc).

Definition flat_groups (grouped : option (list (string * list pydict))) : bool :=
  match grouped with
  | None => true
  | Some groups => forallb (fun g => forallb flat_record (snd g)) groups
  end.




(** * Properties *)

(** ** The output monad *)

Lemma bind_ret_l {E A B : Type} (a : A) (f : A -> W E B) :
  bind (ret a) f = f a.
Proof. unfold bind, ret. simpl. now destruct (f a). Qed.

Lemma bind_ret_r {E A : Type} (m : W E A) :
  bind m (fun a => ret a) = m.
Proof.
  destruct m as [out [e | a]]; simpl; [reflexivity |].
  now rewrite app_nil_r.
Qed.

Lemma bind_assoc {E A B C : Type} (m : W E A) (f : A -> W E B) (g : B -> W E C) :
  bind (bind m f) g = bind m (fun a => bind (f a) g).
Proof.
  destruct m as [out [e | a]]; simpl; [reflexivity |].
  destruct (f a) as [out' [e | b]]; simpl; [reflexivity |].
  now rewrite app_assoc.
Qed.

Lemma bind_emit {E B : Type} (x : E) (f : unit -> W E B) :
  bind (emit x) f = (x :: output (f tt), result (f tt)).
Proof. reflexivity. Qed.

Lemma result_bind {E A B : Type} (m : W E A) (f : A -> W E B) :
  result (bind m f) =
  match result m with
  | inl e => inl e
  | inr a => result (f a)
  end.
Proof. now destruct m as [out [e | a]]. Qed.

(** The continuation sees only the values a computation can return. *)
Lemma bind_ext_result {E A B : Type} (m : W E A) (f g : A -> W E B) :
  (forall a, result m = inr a -> f a = g a) ->
  bind m f = bind m g.
Proof.
  destruct m as [out [e | a]]; simpl; intros H; [reflexivity |].
  now rewrite (H a eq_refl).
Qed.

#[local] Arguments bind : simpl never.

(** ** Dictionaries and equality *)

Lemma py_eq_str_refl (s : string) : py_eq (PStr s) (PStr s) = true.
Proof. simpl. apply String.eqb_refl. Qed.

Lemma truthy_str (s : string) : s <> "" -> truthy (PStr s) = true.
Proof.
  intros H. simpl. destruct (String.eqb s "") eqn:E; [| reflexivity].
  apply String.eqb_eq in E. contradiction.
Qed.

Lemma get_default_some (d : pydict) (k : string) (v dflt : pyval) :
  dict_get d k = Some v -> get_default d k dflt = v.
Proof. unfold get_default. now intros ->. Qed.

Lemma get_default_none (d : pydict) (k : string) (dflt : pyval) :
  dict_get d k = None -> get_default d k dflt = dflt.
Proof. unfold get_default. now intros ->. Qed.

Lemma py_mul_fits {E : Type} (c : ascii) (z : Z) :
  (z <= sys_maxsize)%Z ->
  py_mul (E:=E) c (PInt z) = ret (repeat_char c (Z.to_nat z)).
Proof. intros H. unfold py_mul. apply Z.leb_le in H. now rewrite H. Qed.

Lemma py_mul_overflow {E : Type} (c : ascii) (z : Z) :
  (sys_maxsize < z)%Z -> py_mul (E:=E) c (PInt z) = raise OverflowError.
Proof. intros H. unfold py_mul. apply Z.leb_gt in H. now rewrite H. Qed.

Lemma py_mul_1 {E : Type} (c : ascii) : py_mul (E:=E) c (PInt 1) = ret (String c "").
Proof. reflexivity. Qed.

Lemma py_mul_2 {E : Type} (c : ascii) :
  py_mul (E:=E) c (PInt 2) = ret (String c (String c "")).
Proof. reflexivity. Qed.

Lemma first_h1_title_app (pre rest : list pydict) :
  Forall not_h1 pre ->
  first_h1_title (pre ++ rest) = first_h1_title rest.
Proof.
  induction 1 as [| p pre Hp _ IH]; simpl; [reflexivity |].
  unfold not_h1 in Hp. now rewrite Hp.
Qed.

Lemma level_not_1_not_h1 (section : pydict) : level_not_1 section -> not_h1 section.
Proof.
  intros (v & Hv & Hne). unfold not_h1, get_none.
  now rewrite (get_default_some _ _ _ _ Hv).
Qed.

(** ** C1: a list of sub-sections is printed as a list of items *)

(** C1 (the code departs from the claim).  The claim asks both renderers to
    render a nested list of sections recursively.  On the grouped section
    that [aggregate_results] builds, each renderer prints one bullet holding
    the Python [repr] of the sub-section dictionary; the heading of the
    sub-section is not in the output. *)
Theorem C1_nested_sections_printed_as_repr :
  markdown_chunks nested_doc =
    ([ "## Grouped Web Results by Domain" ++ LF ++ LF;
       "- {'level': 3, 'title': 'Domain: ex.com', 'content': {'items': [{'primary': 'u1', 'secondary': 'f', 'tertiary': 't'}], 'item_prefix': 'URL', 'secondary_prefix': 'File Path', 'tertiary_prefix': 'Content Type'}}" ++ LF;
       LF ], inr tt)
  /\ adoc_lines nested_doc =
    ([ "=== Grouped Web Results by Domain" ++ LF;
       "* {'level': 3, 'title': 'Domain: ex.com', 'content': {'items': [{'primary': 'u1', 'secondary': 'f', 'tertiary': 't'}], 'item_prefix': 'URL', 'secondary_prefix': 'File Path', 'tertiary_prefix': 'Content Type'}}";
       "" ], inr tt)
  /\ ~ In ("### Domain: ex.com" ++ LF ++ LF) (output (markdown_chunks nested_doc))
  /\ ~ In ("==== Domain: ex.com" ++ LF) (output (adoc_lines nested_doc)).
Proof.
  repeat split; try (vm_compute; reflexivity).
  - vm_compute. intros [H | [H | [H | H]]]; try discriminate H; exact H.
  - vm_compute. intros [H | [H | [H | H]]]; try discriminate H; exact H.
Qed.

(** ** C2: a level-1 section without a title key *)

(** C2 (the code departs from the claim).  When the first section whose
    level is 1 has no [title] key, the subscript of line 41 raises
    [KeyError] and no AsciiDoc file is written, whatever the rest of the
    report holds. *)
Theorem C2_untitled_h1_raises (pre rest : list pydict) (s : pydict) (path : string) :
  Forall not_h1 pre ->
  py_eq (get_none s "level") (PInt 1) = true ->
  dict_get s "title" = None ->
  _write_asciidoc_report (pre ++ s :: rest) path = ([], inl (KeyError "title")).
Proof.
  intros Hpre Hlevel Htitle.
  unfold _write_asciidoc_report, adoc_lines.
  rewrite (first_h1_title_app pre (s :: rest) Hpre). simpl.
  now rewrite Hlevel, Htitle.
Qed.

Lemma C2_untitled_h1_raises_witness :
  _write_asciidoc_report untitled_h1_doc "final_report.adoc"
  = ([], inl (KeyError "title")).
Proof.
  apply (C2_untitled_h1_raises [] [] [("level", PInt 1); ("content", PStr "x")]).
  - constructor.
  - reflexivity.
  - reflexivity.
Defined.

(** ** The loop of the AsciiDoc renderer *)

Lemma adoc_loop_app (h1 : pyval) (a b : list pydict) :
  forall skipped,
    adoc_loop h1 skipped (a ++ b) =
    (skipped' <- adoc_loop h1 skipped a ;; adoc_loop h1 skipped' b).
Proof.
  induction a as [| s a IH]; intros skipped; simpl.
  - now rewrite bind_ret_l.
  - rewrite bind_assoc. apply bind_ext_result. intros sk' _. apply IH.
Qed.

(** A heading that is not elided leaves [first_h1_skipped] as it was. *)
Lemma adoc_heading_keeps (h1 : pyval) (skipped : bool) (level title : pyval) :
  is_first_h1 h1 skipped level title = false ->
  forall skipped', result (adoc_heading h1 skipped level title) = inr skipped' ->
                   skipped' = skipped.
Proof.
  intros Hno skipped'. unfold adoc_heading. rewrite Hno.
  destruct (truthy title).
  - destruct level; try discriminate.
    cbn [py_succ]. rewrite bind_ret_l. unfold py_mul.
    destruct (Z.leb (z + 1) sys_maxsize); [| discriminate].
    rewrite bind_ret_l, bind_emit. cbn. congruence.
  - cbn. congruence.
Qed.

Lemma adoc_section_keeps (h1 : pyval) (skipped : bool) (section : pydict) :
  is_first_h1 h1 skipped (get_default section "level" (PInt 1))
                         (get_default section "title" (PStr "")) = false ->
  forall skipped', result (adoc_section h1 skipped section) = inr skipped' ->
                   skipped' = skipped.
Proof.
  intros Hno skipped'. unfold adoc_section. rewrite result_bind.
  destruct (result (adoc_heading _ _ _ _)) as [e | sk1] eqn:Hh; [discriminate |].
  apply (adoc_heading_keeps _ _ _ _ Hno) in Hh. subst sk1.
  rewrite result_bind.
  destruct (result (adoc_content _ _ _ _ _)) as [e | u]; [discriminate |].
  cbn. congruence.
Qed.

Lemma level_not_1_not_first (h1 : pyval) (skipped : bool) (section : pydict) :
  level_not_1 section ->
  is_first_h1 h1 skipped (get_default section "level" (PInt 1))
                         (get_default section "title" (PStr "")) = false.
Proof.
  intros (v & Hv & Hne). unfold is_first_h1.
  now rewrite (get_default_some _ _ _ _ Hv), Hne.
Qed.

Lemma adoc_loop_keeps (h1 : pyval) (pre : list pydict) :
  Forall level_not_1 pre ->
  forall skipped skipped',
    result (adoc_loop h1 skipped pre) = inr skipped' -> skipped' = skipped.
Proof.
  induction 1 as [| p pre Hp _ IH]; intros skipped skipped'; simpl.
  - cbn. congruence.
  - rewrite result_bind.
    destruct (result (adoc_section h1 skipped p)) as [e | sk1] eqn:Hs; [discriminate |].
    apply (adoc_section_keeps _ _ _ (level_not_1_not_first h1 skipped p Hp)) in Hs.
    subst sk1. apply IH.
Qed.

(** The section whose title is the document title contributes its content
    only, and sets the flag. *)
Lemma adoc_section_elided (T : string) (s : pydict) :
  dict_get s "level" = Some (PInt 1) ->
  dict_get s "title" = Some (PStr T) ->
  adoc_section (PStr T) false s =
  (adoc_content (PStr T) true (PInt 1) (PStr T) (get_default s "content" (PStr "")) ;;;
   ret true).
Proof.
  intros Hl Ht. unfold adoc_section.
  rewrite (get_default_some _ _ _ _ Hl), (get_default_some _ _ _ _ Ht).
  unfold adoc_heading, is_first_h1. rewrite py_eq_str_refl.
  cbn [py_eq Z.eqb Pos.eqb andb negb].
  now rewrite bind_ret_l.
Qed.


(** ** C3: the pre-scan looks at the level only *)

(** C3, the claim as stated fails: in a report whose first level-1 section
    has an empty title and whose second level-1 section is titled "Report",
    no document-title line is written and "Report" is an ordinary body
    heading. *)
Lemma C3_later_title_not_promoted :
  adoc_lines empty_then_titled_doc =
    ([ "intro" ++ LF; "== Report" ++ LF; "body" ++ LF ], inr tt)
  /\ ~ has_title_line empty_then_titled_doc "Report".
Proof.
  split; [vm_compute; reflexivity |].
  intros [body H]. vm_compute in H. discriminate H.
Qed.

Lemma is_first_h1_skipped (h1 level title : pyval) :
  is_first_h1 h1 true level title = false.
Proof. unfold is_first_h1. cbn [negb]. now rewrite andb_false_r. Qed.

Lemma adoc_loop_stays_skipped (h1 : pyval) (report_data : list pydict) :
  forall skipped',
    result (adoc_loop h1 true report_data) = inr skipped' -> skipped' = true.
Proof.
  induction report_data as [| s rest IH]; intros skipped'; cbn [adoc_loop].
  - cbn. congruence.
  - rewrite result_bind.
    destruct (result (adoc_section h1 true s)) as [e | sk1] eqn:Hs; [discriminate |].
    apply (adoc_section_keeps _ _ _ (is_first_h1_skipped _ _ _)) in Hs.
    subst sk1. apply IH.
Qed.

(** Once the first level-1 section is passed, [first_h1_skipped] is set. *)
Lemma adoc_loop_skipped_after_first_h1 (t : string) (pre mid : list pydict) (s1 : pydict) :
  dict_get s1 "level" = Some (PInt 1) ->
  dict_get s1 "title" = Some (PStr t) ->
  forall skipped',
    result (adoc_loop (PStr t) false (pre ++ s1 :: mid)) = inr skipped' ->
    skipped' = true.
Proof.
  intros Hl Ht skipped'. rewrite adoc_loop_app, result_bind.
  destruct (result (adoc_loop (PStr t) false pre)) as [e | sk0]; [discriminate |].
  cbn [adoc_loop]. rewrite result_bind.
  destruct (result (adoc_section (PStr t) sk0 s1)) as [e | sk1] eqn:Hs; [discriminate |].
  assert (sk1 = true) as ->.
  { destruct sk0.
    - exact (adoc_section_keeps _ _ _ (is_first_h1_skipped _ _ _) _ Hs).
    - rewrite (adoc_section_elided t s1 Hl Ht), result_bind in Hs.
      destruct (result (adoc_content _ _ _ _ _)); [discriminate |].
      cbn in Hs. congruence. }
  apply adoc_loop_stays_skipped.
Qed.

(** A titled section that is not elided: its heading, its content. *)
Lemma adoc_section_titled (h1 : pyval) (skipped : bool) (s : pydict) (z : Z) (T : string) :
  get_default s "level" (PInt 1) = PInt z ->
  (z + 1 <= sys_maxsize)%Z ->
  get_default s "title" (PStr "") = PStr T ->
  T <> "" ->
  is_first_h1 h1 skipped (PInt z) (PStr T) = false ->
  adoc_section h1 skipped s =
  (emit (repeat_char "=" (Z.to_nat (z + 1)) ++ " " ++ T ++ LF) ;;;
   adoc_content h1 skipped (PInt z) (PStr T) (get_default s "content" (PStr "")) ;;;
   ret skipped).
Proof.
  intros Hl Hz Ht HT Hno. unfold adoc_section. rewrite Hl, Ht.
  unfold adoc_heading. rewrite Hno, (truthy_str T HT).
  cbn [py_succ]. rewrite bind_ret_l, (py_mul_fits _ _ Hz), bind_ret_l.
  cbn [py_str]. rewrite !bind_assoc. apply bind_ext_result. intros _ _.
  now rewrite bind_ret_l.
Qed.

(** C3 (amended).  The pre-scan selects the first section whose level is 1,
    whatever its title.  When that title is the empty string, the report
    has no document-title line: it is the loop over the sections and
    nothing before it; and a later level-1 section with a non-empty title T
    is rendered at its place with the body heading [== T], followed by its
    content, neither promoted nor elided. *)
Theorem C3_prescan_takes_first_level_1
    (pre mid post : list pydict) (s1 s2 : pydict) (T : string) :
  Forall not_h1 pre ->
  dict_get s1 "level" = Some (PInt 1) ->
  dict_get s1 "title" = Some (PStr "") ->
  dict_get s2 "level" = Some (PInt 1) ->
  dict_get s2 "title" = Some (PStr T) ->
  T <> "" ->
  first_h1_title (pre ++ s1 :: mid ++ s2 :: post) = ret (PStr "")
  /\ adoc_lines (pre ++ s1 :: mid ++ s2 :: post) =
     (adoc_loop (PStr "") false (pre ++ s1 :: mid) ;;;
      emit ("== " ++ T ++ LF) ;;;
      adoc_content (PStr "") true (PInt 1) (PStr T)
        (get_default s2 "content" (PStr "")) ;;;
      adoc_loop (PStr "") true post ;;;
      ret tt)
  /\ (forall s rest t,
        py_eq (get_none s "level") (PInt 1) = true ->
        dict_get s "title" = Some t ->
        first_h1_title (pre ++ s :: rest) = ret t).
Proof.
  intros Hpre Hl1 Ht1 Hl2 Ht2 HT.
  assert (Hscan : forall s rest t,
             py_eq (get_none s "level") (PInt 1) = true ->
             dict_get s "title" = Some t ->
             first_h1_title (pre ++ s :: rest) = ret t).
  { intros s rest t Hl Ht. rewrite (first_h1_title_app pre (s :: rest) Hpre).
    cbn [first_h1_title]. now rewrite Hl, Ht. }
  assert (Hscan1 : first_h1_title (pre ++ s1 :: mid ++ s2 :: post) = ret (PStr "")).
  { apply Hscan; [| exact Ht1]. unfold get_none.
    now rewrite (get_default_some _ _ _ _ Hl1). }
  split; [exact Hscan1 |]. split; [| exact Hscan].
  unfold adoc_lines. rewrite Hscan1, bind_ret_l.
  cbn [truthy String.eqb negb when]. rewrite bind_ret_l.
  replace (pre ++ s1 :: mid ++ s2 :: post)%list
    with ((pre ++ s1 :: mid) ++ s2 :: post)%list
    by (now rewrite <- app_assoc).
  rewrite adoc_loop_app, !bind_assoc. apply bind_ext_result. intros sk Hsk.
  apply (adoc_loop_skipped_after_first_h1 "" pre mid s1 Hl1 Ht1) in Hsk. subst sk.
  cbn [adoc_loop].
  rewrite (adoc_section_titled (PStr "") true s2 1 T
             (get_default_some _ _ _ _ Hl2) ltac:(unfold sys_maxsize; lia)
             (get_default_some _ _ _ _ Ht2) HT (is_first_h1_skipped _ _ _)).
  rewrite !bind_assoc. apply bind_ext_result. intros _ _.
  rewrite ?bind_assoc. apply bind_ext_result. intros _ _.
  now rewrite bind_ret_l.
Qed.

Lemma C3_prescan_takes_first_level_1_witness :
  first_h1_title
    ([] ++ [("level", PInt 1); ("title", PStr ""); ("content", PStr "intro")]
        :: [] ++ [("level", PInt 1); ("title", PStr "Report"); ("content", PStr "body")]
        :: [])
  = ret (PStr "")
  /\ adoc_lines
       ([] ++ [("level", PInt 1); ("title", PStr ""); ("content", PStr "intro")]
           :: [] ++ [("level", PInt 1); ("title", PStr "Report"); ("content", PStr "body")]
           :: []) =
     (adoc_loop (PStr "") false
        ([] ++ [("level", PInt 1); ("title", PStr ""); ("content", PStr "intro")] :: []) ;;;
      emit ("== " ++ "Report" ++ LF) ;;;
      adoc_content (PStr "") true (PInt 1) (PStr "Report")
        (get_default [("level", PInt 1); ("title", PStr "Report"); ("content", PStr "body")]
           "content" (PStr "")) ;;;
      adoc_loop (PStr "") true [] ;;;
      ret tt)
  /\ (forall s rest t,
        py_eq (get_none s "level") (PInt 1) = true ->
        dict_get s "title" = Some t ->
        first_h1_title ([] ++ s :: rest) = ret t).
Proof.
  apply (C3_prescan_takes_first_level_1 [] [] []
           [("level", PInt 1); ("title", PStr ""); ("content", PStr "intro")]
           [("level", PInt 1); ("title", PStr "Report"); ("content", PStr "body")]
           "Report").
  - constructor.
  - reflexivity.
  - reflexivity.
  - reflexivity.
  - reflexivity.
  - discriminate.
Defined.

(** ** C4: the title of the answer section *)

Lemma aggregator_report_data_inv (E : Type)
    (query_id enhanced_query : string) (web_results local_results : list pydict)
    (final_answer : string) (grouped : option (list (string * list pydict)))
    (previous follow_up : option string) (full : list pydict) :
  result (aggregator_report_data (E:=E) query_id enhanced_query web_results
            local_results final_answer grouped previous follow_up) = inr full ->
  exists local_content,
    result (local_section_content (E:=E) local_results) = inr local_content /\
    full =
      ([ [("level", PInt 1);
          ("title", PStr ("Aggregated Results for Query ID: " ++ query_id))];
         [("level", PInt 2); ("title", PStr "Enhanced Query");
          ("content", PStr enhanced_query)];
         [("level", PInt 1); ("title", PStr "Final Aggregated Answer (RAG)");
          ("content", PStr final_answer)];
         [("level", PInt 2); ("title", PStr "Web Search Results");
          ("content", web_section_content web_results)] ]
       ++ grouped_sections grouped
       ++ [ [("level", PInt 2); ("title", PStr "Local Retrieval Results");
             ("content", local_content)] ]
       ++ optional_section "Previous Results Integrated" previous
       ++ optional_section "Follow-Up Conversation" follow_up)%list.
Proof.
  unfold aggregator_report_data. rewrite result_bind.
  destruct (result (local_section_content local_results)) as [e | lc]; [discriminate |].
  cbn. intros H. inversion H. now exists lc.
Qed.

(** C4, the claim as stated fails: the title of the answer-only document is
    not "Final Aggregated Answer". *)
Lemma C4_title_is_not_bare :
  map (fun s => get_default s "title" PNone) (final_report_data "42")
  <> [PStr "Final Aggregated Answer"].
Proof. vm_compute. discriminate. Qed.

(** C4 (amended).  The answer-only document is a single section of level 1
    whose title is exactly "Final Aggregated Answer (RAG)" and whose content
    is the final answer; the third section of the full document is that same
    section. *)
Theorem C4_answer_section (E : Type)
    (query_id enhanced_query : string) (web_results local_results : list pydict)
    (final_answer : string) (grouped : option (list (string * list pydict)))
    (previous follow_up : option string) (full : list pydict) :
  result (aggregator_report_data (E:=E) query_id enhanced_query web_results
            local_results final_answer grouped previous follow_up) = inr full ->
  final_report_data final_answer =
    [ [("level", PInt 1); ("title", PStr "Final Aggregated Answer (RAG)");
       ("content", PStr final_answer)] ]
  /\ nth_error full 2 = nth_error (final_report_data final_answer) 0.
Proof.
  intros H. split; [reflexivity |].
  destruct (aggregator_report_data_inv _ _ _ _ _ _ _ _ _ _ H) as (lc & _ & ->).
  reflexivity.
Qed.

Lemma C4_answer_section_witness :
  final_report_data "42" =
    [ [("level", PInt 1); ("title", PStr "Final Aggregated Answer (RAG)");
       ("content", PStr "42")] ]
  /\ nth_error
       [ [("level", PInt 1); ("title", PStr "Aggregated Results for Query ID: q1")];
         [("level", PInt 2); ("title", PStr "Enhanced Query"); ("content", PStr "why")];
         [("level", PInt 1); ("title", PStr "Final Aggregated Answer (RAG)");
          ("content", PStr "42")];
         [("level", PInt 2); ("title", PStr "Web Search Results");
          ("content", PStr "_No web results found_")];
         [("level", PInt 2); ("title", PStr "Local Retrieval Results");
          ("content", PStr "_No local results found_")] ] 2
     = nth_error (final_report_data "42") 0.
Proof.
  apply (C4_answer_section io_event "q1" "why" [] [] "42" None None None).
  reflexivity.
Defined.

(** ** C5: the document title is written once and its section elided *)

(** C5, the claim as stated fails: the first level-1 section with a title is
    "Summary", but an untitled level-1 section comes before it; the report
    has no document-title line and "Summary" is printed as a body heading at
    its section. *)
Lemma C5_title_missing_after_untitled_h1 :
  output (adoc_lines blank_then_summary_doc) = [ "== Summary" ++ LF; "x" ++ LF ]
  /\ ~ has_title_line blank_then_summary_doc "Summary".
Proof.
  split; [vm_compute; reflexivity |].
  intros [body H]. vm_compute in H. discriminate H.
Qed.

(** C5 (amended).  When the first level-1 section of the report — every
    section before it states another level — has the non-empty title T, the
    report opens with the line [= T]; at that section no heading is written,
    only its content, without the empty-section placeholder; the sections
    before and after are rendered by the ordinary loop, and none after it is
    elided. *)
Theorem C5_title_once_and_elided (pre post : list pydict) (s : pydict) (T : string) :
  Forall level_not_1 pre ->
  dict_get s "level" = Some (PInt 1) ->
  dict_get s "title" = Some (PStr T) ->
  T <> "" ->
  adoc_lines (pre ++ s :: post) =
    (emit ("= " ++ T ++ LF) ;;;
     adoc_loop (PStr T) false pre ;;;
     adoc_content (PStr T) true (PInt 1) (PStr T) (get_default s "content" (PStr "")) ;;;
     adoc_loop (PStr T) true post ;;;
     ret tt)
  /\ (forall content,
        adoc_dispatch (PStr T) true (PInt 1) (PStr T) content <> BrPlaceholder)
  /\ (forall level title, is_first_h1 (PStr T) true level title = false).
Proof.
  intros Hpre Hl Ht HT. split; [| split].
  - unfold adoc_lines.
    rewrite (first_h1_title_app pre (s :: post)
               (Forall_impl _ level_not_1_not_h1 Hpre)).
    cbn [first_h1_title]. unfold get_none.
    rewrite (get_default_some _ _ _ _ Hl), Ht.
    cbn [py_eq Z.eqb Pos.eqb]. rewrite bind_ret_l, (truthy_str T HT).
    cbn [when py_str]. apply bind_ext_result. intros _ _.
    rewrite adoc_loop_app, !bind_assoc.
    apply bind_ext_result. intros sk Hsk.
    apply (adoc_loop_keeps _ _ Hpre) in Hsk. subst sk.
    cbn [adoc_loop]. rewrite (adoc_section_elided T s Hl Ht).
    rewrite !bind_assoc. apply bind_ext_result. intros _ _.
    now rewrite bind_ret_l.
  - intros content. unfold adoc_dispatch.
    destruct content; cbn [truthy isinstance_str];
      rewrite ?py_eq_str_refl; cbn [py_eq Z.eqb Pos.eqb andb negb];
      rewrite ?andb_false_r;
      repeat match goal with
             | |- (if ?c then _ else _) <> _ => destruct c
             end; discriminate.
  - intros level title. unfold is_first_h1. cbn. now rewrite !andb_false_r.
Qed.

Lemma C5_title_once_and_elided_witness :
  adoc_lines
    ([ [("level", PInt 2); ("title", PStr "Preface"); ("content", PStr "p")] ]
       ++ [("level", PInt 1); ("title", PStr "Summary")]
       :: [ [("level", PInt 1); ("title", PStr "Summary"); ("content", PStr "again")] ])
  = (emit ("= " ++ "Summary" ++ LF) ;;;
     adoc_loop (PStr "Summary") false
       [ [("level", PInt 2); ("title", PStr "Preface"); ("content", PStr "p")] ] ;;;
     adoc_content (PStr "Summary") true (PInt 1) (PStr "Summary")
       (get_default [("level", PInt 1); ("title", PStr "Summary")] "content" (PStr "")) ;;;
     adoc_loop (PStr "Summary") true
       [ [("level", PInt 1); ("title", PStr "Summary"); ("content", PStr "again")] ] ;;;
     ret tt)
  /\ (forall content,
        adoc_dispatch (PStr "Summary") true (PInt 1) (PStr "Summary") content
        <> BrPlaceholder)
  /\ (forall level title, is_first_h1 (PStr "Summary") true level title = false).
Proof.
  apply (C5_title_once_and_elided
           [ [("level", PInt 2); ("title", PStr "Preface"); ("content", PStr "p")] ]
           [ [("level", PInt 1); ("title", PStr "Summary"); ("content", PStr "again")] ]
           [("level", PInt 1); ("title", PStr "Summary")] "Summary").
  - constructor; [| constructor].
    exists (PInt 2). split; reflexivity.
  - reflexivity.
  - reflexivity.
  - discriminate.
Defined.

(** ** C6: the depth of headings *)




(** ** C7: the placeholder of an empty web result list *)

(** C7.  With no web results, the fourth section of the full document is
    "Web Search Results" at level 2 and its content is the string
    "_No web results found_", a string and no dictionary. *)
Theorem C7_no_web_results_placeholder (E : Type)
    (query_id enhanced_query : string) (local_results : list pydict)
    (final_answer : string) (grouped : option (list (string * list pydict)))
    (previous follow_up : option string) (full : list pydict) :
  result (aggregator_report_data (E:=E) query_id enhanced_query [] local_results
            final_answer grouped previous follow_up) = inr full ->
  nth_error full 3 =
    Some [("level", PInt 2); ("title", PStr "Web Search Results");
          ("content", PStr "_No web results found_")]
  /\ isinstance_str (web_section_content []) = true
  /\ isinstance_dict (web_section_content []) = false
  /\ (forall item rest, isinstance_dict (web_section_content (item :: rest)) = true).
Proof.
  intros H.
  destruct (aggregator_report_data_inv _ _ _ _ _ _ _ _ _ _ H) as (lc & _ & ->).
  repeat split.
Qed.

Lemma C7_no_web_results_placeholder_witness :
  nth_error
    [ [("level", PInt 1); ("title", PStr "Aggregated Results for Query ID: q1")];
      [("level", PInt 2); ("title", PStr "Enhanced Query"); ("content", PStr "why")];
      [("level", PInt 1); ("title", PStr "Final Aggregated Answer (RAG)");
       ("content", PStr "42")];
      [("level", PInt 2); ("title", PStr "Web Search Results");
       ("content", PStr "_No web results found_")];
      [("level", PInt 2); ("title", PStr "Local Retrieval Results");
       ("content", PStr "_No local results found_")] ] 3 =
    Some [("level", PInt 2); ("title", PStr "Web Search Results");
          ("content", PStr "_No web results found_")]
  /\ isinstance_str (web_section_content []) = true
  /\ isinstance_dict (web_section_content []) = false
  /\ (forall item rest, isinstance_dict (web_section_content (item :: rest)) = true).
Proof.
  apply (C7_no_web_results_placeholder io_event "q1" "why" [] "42" None None None).
  reflexivity.
Defined.

(** ** C8: the item of a local result *)

Lemma local_entries_map (E : Type) (local_results : list pydict) :
  forallb metadata_ok local_results = true ->
  local_entries (E:=E) local_results =
  ret (map (fun doc => PDict (local_item (metadata_of doc))) local_results).
Proof.
  induction local_results as [| doc rest IH]; [reflexivity |].
  cbn [forallb]. intros H. apply andb_prop in H. destruct H as [Hdoc Hrest].
  cbn [local_entries map]. rewrite (IH Hrest).
  unfold local_entry, metadata_of. unfold metadata_ok in Hdoc.
  destruct (get_default doc "metadata" (PDict [])) as [| | | | meta];
    try discriminate.
  cbn [as_dict]. now rewrite !bind_ret_l.
Qed.

(** C8.  For a non-empty list of local results, the "Local Retrieval
    Results" section of the full document holds one item per local result,
    in order, built from its metadata: the file path as [primary]; with a
    [page] key, the page as [secondary] and the snippet as [tertiary];
    without one, the snippet as [secondary] and no [tertiary]. *)
Theorem C8_local_item (E : Type)
    (query_id enhanced_query : string) (web_results local_results : list pydict)
    (final_answer : string) (grouped : option (list (string * list pydict)))
    (previous follow_up : option string) :
  local_results <> [] ->
  forallb metadata_ok local_results = true ->
  (exists full,
     aggregator_report_data (E:=E) query_id enhanced_query web_results local_results
       final_answer grouped previous follow_up = ret full
     /\ nth_error full (4 + length (grouped_sections grouped)) =
        Some [("level", PInt 2); ("title", PStr "Local Retrieval Results");
              ("content",
               PDict [("items",
                       PList (map (fun doc => PDict (local_item (metadata_of doc)))
                                  local_results));
                      ("item_prefix", PStr "File");
                      ("secondary_prefix", PStr "Page");
                      ("tertiary_prefix", PStr "Snippet")])])
  /\ (forall meta page,
        dict_get meta "page" = Some page ->
        local_item meta =
          [("primary", get_default meta "file_path" (PStr ""));
           ("secondary", page);
           ("tertiary", get_default meta "snippet" (PStr ""))])
  /\ (forall meta,
        dict_get meta "page" = None ->
        local_item meta =
          [("primary", get_default meta "file_path" (PStr ""));
           ("secondary", get_default meta "snippet" (PStr ""))]
        /\ dict_get (local_item meta) "tertiary" = None).
Proof.
  intros Hne Hok. split; [| split].
  - unfold aggregator_report_data, local_section_content.
    destruct local_results as [| doc rest]; [contradiction |].
    rewrite (local_entries_map E _ Hok), !bind_ret_l.
    eexists. split; [reflexivity |].
    cbn [app]. change (4 + length (grouped_sections grouped))
      with (S (S (S (S (length (grouped_sections grouped)))))).
    cbn [nth_error].
    rewrite nth_error_app2 by apply le_n. now rewrite Nat.sub_diag.
  - intros meta page H. unfold local_item, dict_mem, get_none, get_default at 2.
    rewrite H. reflexivity.
  - intros meta H. unfold local_item, dict_mem. rewrite H. split; reflexivity.
Qed.

Lemma C8_local_item_witness :
  (exists full,
     aggregator_report_data (E:=io_event) "q1" "why" []
       [ [("metadata", PDict [("file_path", PStr "a.pdf"); ("page", PInt 3);
                              ("snippet", PStr "hello")])];
         [("metadata", PDict [("file_path", PStr "b.txt"); ("snippet", PStr "bye")])] ]
       "42" None None None = ret full
     /\ nth_error full (4 + length (grouped_sections None)) =
        Some [("level", PInt 2); ("title", PStr "Local Retrieval Results");
              ("content",
               PDict [("items",
                       PList [PDict [("primary", PStr "a.pdf"); ("secondary", PInt 3);
                                     ("tertiary", PStr "hello")];
                              PDict [("primary", PStr "b.txt");
                                     ("secondary", PStr "bye")]]);
                      ("item_prefix", PStr "File");
                      ("secondary_prefix", PStr "Page");
                      ("tertiary_prefix", PStr "Snippet")])])
  /\ (forall meta page,
        dict_get meta "page" = Some page ->
        local_item meta =
          [("primary", get_default meta "file_path" (PStr ""));
           ("secondary", page);
           ("tertiary", get_default meta "snippet" (PStr ""))])
  /\ (forall meta,
        dict_get meta "page" = None ->
        local_item meta =
          [("primary", get_default meta "file_path" (PStr ""));
           ("secondary", get_default meta "snippet" (PStr ""))]
        /\ dict_get (local_item meta) "tertiary" = None).
Proof.
  apply (C8_local_item io_event "q1" "why" []
           [ [("metadata", PDict [("file_path", PStr "a.pdf"); ("page", PInt 3);
                                  ("snippet", PStr "hello")])];
             [("metadata", PDict [("file_path", PStr "b.txt"); ("snippet", PStr "bye")])] ]
           "42" None None None).
  - discriminate.
  - reflexivity.
Defined.

(** ** C10: a structured content without items *)

(** C10.  For a section whose content is a dictionary with an empty (or
    missing) [items] list, each renderer writes the heading of the section,
    if any, and nothing else: no content line and no placeholder; and no
    content ever reaches the branch of line 77. *)
Theorem C10_empty_items_render_nothing
    (h1 : pyval) (skipped : bool) (section d : pydict) :
  get_default section "content" (PStr "") = PDict d ->
  get_default d "items" (PList []) = PList [] ->
  md_section section =
    md_heading (get_default section "level" (PInt 1))
               (get_default section "title" (PStr ""))
  /\ adoc_section h1 skipped section =
    adoc_heading h1 skipped (get_default section "level" (PInt 1))
                 (get_default section "title" (PStr ""))
  /\ (forall h1' skipped' level' title' content c,
        adoc_dispatch h1' skipped' level' title' content <> BrDictStr c).
Proof.
  intros Hc H. split; [| split].
  - unfold md_section. rewrite Hc. unfold md_content. rewrite H.
    cbn [py_iter]. rewrite bind_ret_l. cbn [for_each].
    rewrite <- (bind_ret_r (md_heading _ _)) at 2.
    apply bind_ext_result. now intros [] _.
  - unfold adoc_section. rewrite Hc. unfold adoc_content, adoc_dispatch. rewrite H.
    cbn [truthy isinstance_str].
    rewrite <- (bind_ret_r (adoc_heading _ _ _ _)) at 2.
    apply bind_ext_result. intros sk _. now rewrite bind_ret_l.
  - intros h1' skipped' level' title' content c. unfold adoc_dispatch.
    destruct content; cbn [isinstance_str];
      repeat match goal with
             | |- (if ?b then _ else _) <> _ => destruct b
             end; discriminate.
Qed.

Lemma C10_empty_items_render_nothing_witness :
  md_section [("level", PInt 2); ("title", PStr "Web Search Results");
              ("content", PDict [("items", PList []); ("item_prefix", PStr "URL")])] =
    md_heading (PInt 2) (PStr "Web Search Results")
  /\ adoc_section (PStr "Top") true
       [("level", PInt 2); ("title", PStr "Web Search Results");
        ("content", PDict [("items", PList []); ("item_prefix", PStr "URL")])] =
    adoc_heading (PStr "Top") true (PInt 2) (PStr "Web Search Results")
  /\ (forall h1' skipped' level' title' content c,
        adoc_dispatch h1' skipped' level' title' content <> BrDictStr c).
Proof.
  apply (C10_empty_items_render_nothing (PStr "Top") true
           [("level", PInt 2); ("title", PStr "Web Search Results");
            ("content", PDict [("items", PList []); ("item_prefix", PStr "URL")])]
           [("items", PList []); ("item_prefix", PStr "URL")]).
  - reflexivity.
  - reflexivity.
Defined.

(** ** Rendering a well-formed report never raises *)

Lemma for_each_ok {E A : Type} (l : list A) (body : A -> W E unit) :
  (forall x, In x l -> result (body x) = inr tt) ->
  result (for_each l body) = inr tt.
Proof.
  induction l as [| x l IH]; intros H; [reflexivity |].
  cbn [for_each]. rewrite result_bind, (H x (or_introl eq_refl)).
  apply IH. intros y Hy. apply H. now right.
Qed.

Lemma md_item_ok (d : pydict) (item : pyval) :
  isinstance_dict item = true -> result (md_item d item) = inr tt.
Proof.
  destruct item; try discriminate. intros _. unfold md_item.
  cbn [as_dict]. rewrite bind_ret_l.
  destruct (truthy (get_none d0 "secondary")), (truthy (get_none d0 "tertiary"));
    reflexivity.
Qed.

Lemma adoc_item_ok (d : pydict) (item : pyval) :
  isinstance_dict item = true -> result (adoc_item d item) = inr tt.
Proof.
  destruct item; try discriminate. intros _. unfold adoc_item.
  cbn [as_dict]. rewrite bind_ret_l.
  destruct (truthy (get_default d0 "secondary" (PStr ""))),
           (truthy (get_default d0 "tertiary" (PStr ""))); reflexivity.
Qed.

Lemma forallb_In {A : Type} (f : A -> bool) (l : list A) (x : A) :
  forallb f l = true -> In x l -> f x = true.
Proof. intros H Hx. now apply (proj1 (forallb_forall f l) H). Qed.

Lemma md_content_ok (title content : pyval) :
  content_ok content = true -> result (md_content title content) = inr tt.
Proof.
  destruct content as [| z | s | l | d]; cbn [content_ok]; intros H.
  - cbn. now destruct (truthy title).
  - apply Z.eqb_eq in H. subst z. cbn. now destruct (truthy title).
  - cbn [md_content]. destruct (truthy (PStr s)).
    + reflexivity.
    + now destruct (truthy title).
  - cbn [md_content]. rewrite result_bind, for_each_ok; [reflexivity |].
    now intros.
  - cbn [md_content]. unfold items_ok in H.
    destruct (get_default d "items" (PList [])) as [| | | l |]; try discriminate.
    cbn [py_iter]. rewrite bind_ret_l. apply for_each_ok.
    intros x Hx. apply md_item_ok. exact (forallb_In _ _ _ H Hx).
Qed.

Lemma adoc_content_ok (h1 : pyval) (skipped : bool) (level title content : pyval) :
  content_ok content = true ->
  result (adoc_content h1 skipped level title content) = inr tt.
Proof.
  unfold adoc_content, adoc_dispatch.
  destruct content as [| z | s | l | d]; cbn [content_ok]; intros H.
  - cbn [truthy].
    now destruct (truthy title && negb (py_eq level (PInt 1) && py_eq title h1 && skipped)).
  - apply Z.eqb_eq in H. subst z. cbn [truthy Z.eqb negb].
    now destruct (truthy title && negb (py_eq level (PInt 1) && py_eq title h1 && skipped)).
  - destruct (truthy (PStr s)); [reflexivity |].
    now destruct (truthy title && negb (py_eq level (PInt 1) && py_eq title h1 && skipped)).
  - rewrite result_bind, for_each_ok; [reflexivity |]. now intros.
  - unfold items_ok in H.
    destruct (get_default d "items" (PList [])) as [| | | l |]; try discriminate.
    destruct l as [| x l]; [reflexivity |].
    cbn [truthy py_iter]. rewrite bind_ret_l. apply for_each_ok.
    intros y Hy. apply adoc_item_ok. exact (forallb_In _ _ _ H Hy).
Qed.

Lemma section_ok_inv (section : pydict) :
  section_ok section = true ->
  (exists z, get_default section "level" (PInt 1) = PInt z /\ (z <= max_level)%Z)
  /\ (exists t, dict_get section "title" = Some t)
  /\ content_ok (get_default section "content" (PStr "")) = true.
Proof.
  unfold section_ok, dict_mem. intros H.
  apply andb_prop in H. destruct H as [H Hc].
  apply andb_prop in H. destruct H as [Hl Ht].
  repeat split; [| | exact Hc].
  - destruct (get_default section "level" (PInt 1)); try discriminate.
    apply Z.leb_le in Hl. now eexists.
  - destruct (dict_get section "title"); try discriminate. now eexists.
Qed.

Lemma md_section_ok (section : pydict) :
  section_ok section = true -> result (md_section section) = inr tt.
Proof.
  intros H. destruct (section_ok_inv _ H) as ((z & Hl & Hz) & _ & Hc).
  unfold md_section. rewrite Hl, result_bind.
  unfold md_heading, max_level in *.
  destruct (truthy (get_default section "title" (PStr ""))); cbn [when].
  - rewrite py_mul_fits by (unfold sys_maxsize; lia).
    rewrite bind_ret_l. cbn. now apply md_content_ok.
  - cbn. now apply md_content_ok.
Qed.

Lemma markdown_chunks_ok (report_data : list pydict) :
  forallb section_ok report_data = true ->
  result (markdown_chunks report_data) = inr tt.
Proof.
  intros H. apply for_each_ok. intros s Hs.
  apply md_section_ok. exact (forallb_In _ _ _ H Hs).
Qed.

Lemma adoc_section_ok (h1 : pyval) (skipped : bool) (section : pydict) :
  section_ok section = true ->
  exists skipped', result (adoc_section h1 skipped section) = inr skipped'.
Proof.
  intros H. destruct (section_ok_inv _ H) as ((z & Hl & Hz) & _ & Hc).
  unfold max_level in Hz.
  unfold adoc_section. rewrite Hl. unfold adoc_heading.
  destruct (is_first_h1 h1 skipped (PInt z) (get_default section "title" (PStr ""))).
  - rewrite bind_ret_l, result_bind, (adoc_content_ok _ _ _ _ _ Hc). now eexists.
  - destruct (truthy (get_default section "title" (PStr ""))).
    + cbn [py_succ]. rewrite bind_ret_l.
      rewrite py_mul_fits by (unfold sys_maxsize; lia). rewrite bind_ret_l.
      rewrite !bind_assoc, bind_emit. unfold result at 1. cbn [snd].
      rewrite bind_ret_l, result_bind, (adoc_content_ok _ _ _ _ _ Hc). now eexists.
    + rewrite bind_ret_l, result_bind, (adoc_content_ok _ _ _ _ _ Hc). now eexists.
Qed.

Lemma adoc_loop_ok (h1 : pyval) (report_data : list pydict) :
  forallb section_ok report_data = true ->
  forall skipped, exists skipped',
    result (adoc_loop h1 skipped report_data) = inr skipped'.
Proof.
  induction report_data as [| s rest IH]; intros H skipped.
  - now exists skipped.
  - cbn [forallb] in H. apply andb_prop in H. destruct H as [Hs Hrest].
    cbn [adoc_loop]. rewrite result_bind.
    destruct (adoc_section_ok h1 skipped s Hs) as (sk1 & ->).
    apply (IH Hrest).
Qed.

Lemma first_h1_title_ok (report_data : list pydict) :
  forallb section_ok report_data = true ->
  exists t, first_h1_title report_data = ret t.
Proof.
  induction report_data as [| s rest IH]; intros H.
  - now exists PNone.
  - cbn [forallb] in H. apply andb_prop in H. destruct H as [Hs Hrest].
    cbn [first_h1_title].
    destruct (py_eq (get_none s "level") (PInt 1)); [| exact (IH Hrest)].
    destruct (section_ok_inv _ Hs) as (_ & (t & ->) & _). now exists t.
Qed.

Lemma adoc_lines_ok (report_data : list pydict) :
  forallb section_ok report_data = true ->
  result (adoc_lines report_data) = inr tt.
Proof.
  intros H. unfold adoc_lines.
  destruct (first_h1_title_ok _ H) as (t & ->). rewrite bind_ret_l.
  rewrite result_bind.
  assert (Hw : result (when (truthy t) (emit ("= " ++ py_str t ++ LF))) = inr tt)
    by now destruct (truthy t).
  rewrite Hw, result_bind.
  now destruct (adoc_loop_ok t _ H false) as (sk & ->).
Qed.

Lemma write_markdown_report_ok (report_data : list pydict) (file_path : string) :
  forallb section_ok report_data = true ->
  _write_markdown_report report_data file_path =
  emit (WriteFile file_path (String.concat "" (output (markdown_chunks report_data)))).
Proof.
  intros H. unfold _write_markdown_report. now rewrite (markdown_chunks_ok _ H).
Qed.

Lemma write_asciidoc_report_ok (report_data : list pydict) (file_path : string) :
  forallb section_ok report_data = true ->
  _write_asciidoc_report report_data file_path =
  emit (WriteFile file_path (String.concat LF (output (adoc_lines report_data)))).
Proof.
  intros H. unfold _write_asciidoc_report.
  pose proof (adoc_lines_ok _ H) as Hr.
  destruct (adoc_lines report_data) as [lines [e | []]]; [discriminate | reflexivity].
Qed.

(** ** The documents [aggregate_results] builds are well formed *)

Lemma web_items_ok (web_results : list pydict) :
  forallb isinstance_dict (map web_item web_results) = true.
Proof. induction web_results as [| x l IH]; [reflexivity | exact IH]. Qed.

Lemma web_section_content_ok (web_results : list pydict) :
  content_ok (web_section_content web_results) = true.
Proof.
  destruct web_results as [| x l]; [reflexivity |].
  exact (web_items_ok (x :: l)).
Qed.

Lemma grouped_sections_ok (grouped : option (list (string * list pydict))) :
  forallb section_ok (grouped_sections grouped) = true.
Proof. destruct grouped as [[| g l] |]; reflexivity. Qed.

Lemma optional_section_ok (title : string) (text : option string) :
  forallb section_ok (optional_section title text) = true.
Proof.
  destruct text as [s |]; [| reflexivity].
  unfold optional_section. now destruct (truthy (PStr s)).
Qed.

Lemma local_entries_ok (E : Type) (local_results : list pydict) :
  forallb metadata_ok local_results = true ->
  exists items,
    local_entries (E:=E) local_results = ret items
    /\ forallb isinstance_dict items = true.
Proof.
  induction local_results as [| doc rest IH]; intros H.
  - now exists [].
  - cbn [forallb] in H. apply andb_prop in H. destruct H as [Hdoc Hrest].
    destruct (IH Hrest) as (items & Hitems & Hok).
    unfold metadata_ok in Hdoc. cbn [local_entries]. unfold local_entry.
    destruct (get_default doc "metadata" (PDict [])) as [| | | | meta];
      try discriminate.
    cbn [as_dict]. rewrite !bind_ret_l, Hitems, bind_ret_l.
    now exists (PDict (local_item meta) :: items).
Qed.

Lemma local_section_content_ok (E : Type) (local_results : list pydict) :
  forallb metadata_ok local_results = true ->
  exists content,
    local_section_content (E:=E) local_results = ret content
    /\ content_ok content = true.
Proof.
  intros H. destruct local_results as [| doc rest].
  - now exists (PStr "_No local results found_").
  - destruct (local_entries_ok E _ H) as (items & Hitems & Hok).
    unfold local_section_content. rewrite Hitems, bind_ret_l.
    eexists. split; [reflexivity | exact Hok].
Qed.

Lemma aggregator_report_data_ok (E : Type)
    (query_id enhanced_query : string) (web_results local_results : list pydict)
    (final_answer : string) (grouped : option (list (string * list pydict)))
    (previous follow_up : option string) :
  forallb metadata_ok local_results = true ->
  exists full,
    aggregator_report_data (E:=E) query_id enhanced_query web_results local_results
      final_answer grouped previous follow_up = ret full
    /\ forallb section_ok full = true.
Proof.
  intros H. destruct (local_section_content_ok E _ H) as (lc & Hlc & Hok).
  unfold aggregator_report_data. rewrite Hlc, bind_ret_l.
  eexists. split; [reflexivity |].
  rewrite !forallb_app, grouped_sections_ok, !optional_section_ok.
  cbn [forallb]. unfold section_ok at 4 5. cbn [get_default dict_get String.eqb
    Ascii.eqb Bool.eqb dict_mem andb].
  now rewrite web_section_content_ok, Hok.
Qed.

(** ** Paths *)

Lemma string_app_assoc (a b c : string) : (a ++ b) ++ c = a ++ b ++ c.
Proof. induction a as [| x a IH]; simpl; congruence. Qed.

Lemma string_app_nonempty (a b : string) : b <> "" -> a ++ b <> "".
Proof. destruct a; simpl; [auto | discriminate]. Qed.

Lemma endswith_char_app (c : ascii) (a b : string) :
  b <> "" -> endswith_char c (a ++ b) = endswith_char c b.
Proof.
  intros Hb. induction a as [| x a IH]; [reflexivity |].
  simpl. destruct (a ++ b) eqn:E; [| exact IH].
  now destruct (string_app_nonempty a b Hb).
Qed.

Lemma startswith_slash_app (a b : string) :
  a <> "" -> startswith "/" (a ++ b) = startswith "/" a.
Proof.
  destruct a as [| x a]; [contradiction | reflexivity].
Qed.

Lemma eqb_empty_false (s : string) : String.eqb s "" = false -> s <> "".
Proof. intros H ->. discriminate. Qed.

Lemma os_path_join_plain (a b : string) :
  String.eqb a "" = false ->
  endswith_char "/" a = false ->
  startswith "/" b = false ->
  os_path_join a b = a ++ "/" ++ b.
Proof. intros Ha He Hb. unfold os_path_join. now rewrite Hb, Ha, He. Qed.

Lemma plain_dir_inv (base_dir : string) :
  plain_dir base_dir = true ->
  String.eqb base_dir "" = false /\ endswith_char "/" base_dir = false.
Proof.
  unfold plain_dir. intros H. apply andb_prop in H. destruct H as [H1 H2].
  split; [now apply negb_true_iff in H1 | now apply negb_true_iff in H2].
Qed.

Lemma relative_name_inv (query_id : string) :
  relative_name query_id = true ->
  String.eqb query_id "" = false
  /\ startswith "/" query_id = false
  /\ endswith_char "/" query_id = false.
Proof.
  unfold relative_name. intros H. apply andb_prop in H. destruct H as [H H3].
  apply andb_prop in H. destruct H as [H1 H2].
  repeat split; now apply negb_true_iff.
Qed.

(** The output directory and a file name in it. *)
Lemma output_dir_plain (base_dir query_id : string) :
  plain_dir base_dir = true ->
  relative_name query_id = true ->
  os_path_join base_dir query_id = base_dir ++ "/" ++ query_id
  /\ forall name,
       startswith "/" name = false ->
       os_path_join (base_dir ++ "/" ++ query_id) name =
       base_dir ++ "/" ++ query_id ++ "/" ++ name.
Proof.
  intros HB HQ.
  destruct (plain_dir_inv _ HB) as (HB1 & HB2).
  destruct (relative_name_inv _ HQ) as (HQ1 & HQ2 & HQ3).
  pose proof (eqb_empty_false _ HQ1) as HQne.
  split; [now apply os_path_join_plain |].
  intros name Hname.
  rewrite os_path_join_plain; [ | | | exact Hname].
  - now rewrite !string_app_assoc.
  - destruct base_dir; [discriminate | reflexivity].
  - rewrite endswith_char_app; [| now apply string_app_nonempty].
    rewrite (endswith_char_app "/" "/" query_id HQne). exact HQ3.
Qed.

(** ** C9: the files of a report *)

(** C9, the claim as stated fails: a query identifier that starts with a
    slash replaces the base directory; with the default base "results" and
    the identifier "/abs" nothing is written under "results", and the
    returned path is "/abs_output.md". *)
Lemma C9_absolute_query_id_leaves_base :
  map event_path
      (output (aggregate_results "/abs" "why" [] [] "42" [] None None None))
  = [ "/abs"; "/abs/final_report.md"; "/abs/final_report.adoc";
      "/abs_output.md"; "/abs_output.adoc" ]
  /\ result (aggregate_results "/abs" "why" [] [] "42" [] None None None)
     = inr "/abs_output.md"
  /\ result (aggregate_results "/abs" "why" [] [] "42" [] None None None)
     <> inr ("results" ++ "/" ++ "/abs" ++ "/" ++ "/abs" ++ "_output.md").
Proof.
  repeat split; try (vm_compute; reflexivity).
  vm_compute. discriminate.
Qed.

Lemma run_events_accepted (os : os_answers) (todo : list io_event) :
  forall done,
    (forall d ev rest, todo = (d ++ ev :: rest)%list -> os (done ++ d)%list ev = None) ->
    run_events os done todo = ((done ++ todo)%list, None).
Proof.
  induction todo as [| ev rest IH]; intros done H; cbn [run_events].
  - now rewrite app_nil_r.
  - pose proof (H [] ev rest eq_refl) as H0. rewrite app_nil_r in H0. rewrite H0.
    rewrite IH.
    + now rewrite <- app_assoc.
    + intros d ev' rest' ->. rewrite <- app_assoc.
      exact (H (ev :: d) ev' rest' eq_refl).
Qed.

Lemma run_events_refused (os : os_answers) (a : list io_event) (ev : io_event)
    (rest : list io_event) (e : pyexc) :
  forall done,
    (forall d ev' r, a = (d ++ ev' :: r)%list -> os (done ++ d)%list ev' = None) ->
    os (done ++ a)%list ev = Some e ->
    run_events os done (a ++ ev :: rest) = ((done ++ a)%list, Some e).
Proof.
  induction a as [| x a IH]; intros done H He; cbn [app run_events].
  - rewrite app_nil_r in *. now rewrite He.
  - pose proof (H [] x a eq_refl) as H0. rewrite app_nil_r in H0. rewrite H0.
    rewrite IH.
    + now rewrite <- app_assoc.
    + intros d ev' r ->. rewrite <- app_assoc.
      exact (H (x :: d) ev' r eq_refl).
    + now rewrite <- app_assoc.
Qed.

Lemma run_on_accepted {A : Type} (os : os_answers) (m : W io_event A) :
  os_accepts os (output m) -> run_on os m = m.
Proof.
  intros H. unfold run_on. rewrite (run_events_accepted os (output m) [] H).
  now destruct m.
Qed.

Lemma run_on_refused {A : Type} (os : os_answers) (m : W io_event A)
    (done : list io_event) (ev : io_event) (rest : list io_event) (e : pyexc) :
  output m = (done ++ ev :: rest)%list ->
  os_accepts os done ->
  os done ev = Some e ->
  run_on os m = (done, inl e).
Proof.
  intros Hout Hacc He. unfold run_on. rewrite Hout.
  now rewrite (run_events_refused os done ev rest e [] Hacc He).
Qed.

Lemma flat_local_metadata_ok (local_results : list pydict) :
  forallb flat_local local_results = true ->
  forallb metadata_ok local_results = true.
Proof.
  induction local_results as [| doc rest IH]; [reflexivity |].
  cbn [forallb]. unfold flat_local at 1. intros H.
  apply andb_prop in H. destruct H as [H Hrest].
  apply andb_prop in H. destruct H as [Hm _].
  now rewrite Hm, (IH Hrest).
Qed.

(** C9 (amended).  Let B be the base directory ("results" when the
    configuration has no [results_base_dir]), not empty and without a
    trailing slash, Q a query identifier that is not empty and neither
    starts nor ends with a slash, and the results flat records.  The call
    asks for the directory B/Q with [exist_ok=True], then opens, in this
    order, B/Q/final_report.md, B/Q/final_report.adoc, B/Q/Q_output.md and
    B/Q/Q_output.adoc.  When the operating system lets each of these five
    calls succeed, exactly these four files are written and B/Q/Q_output.md
    is returned; when it refuses one, the call ends there with the
    exception of the operating system, the files opened before it
    written. *)
Theorem C9_four_files_written (os : os_answers)
    (B Q enhanced_query : string) (web_results local_results : list pydict)
    (final_answer : string) (config : pydict)
    (grouped : option (list (string * list pydict)))
    (previous follow_up : option string) :
  get_default config "results_base_dir" (PStr "results") = PStr B ->
  plain_dir B = true ->
  relative_name Q = true ->
  forallb flat_record web_results = true ->
  forallb flat_local local_results = true ->
  flat_groups grouped = true ->
  exists t1 t2 t3 t4,
    let calls :=
      [ Makedirs (B ++ "/" ++ Q) true;
        WriteFile (B ++ "/" ++ Q ++ "/" ++ "final_report.md") t1;
        WriteFile (B ++ "/" ++ Q ++ "/" ++ "final_report.adoc") t2;
        WriteFile (B ++ "/" ++ Q ++ "/" ++ Q ++ "_output.md") t3;
        WriteFile (B ++ "/" ++ Q ++ "/" ++ Q ++ "_output.adoc") t4 ] in
    let run :=
      aggregate_results_on os Q enhanced_query web_results local_results final_answer
        config grouped previous follow_up in
    (os_accepts os calls ->
     run = (calls, inr (B ++ "/" ++ Q ++ "/" ++ Q ++ "_output.md")))
    /\ (forall done ev rest e,
          calls = (done ++ ev :: rest)%list ->
          os_accepts os done ->
          os done ev = Some e ->
          run = (done, inl e))
    /\ (dict_get config "results_base_dir" = None -> B = "results").
Proof.
  intros Hcfg HB HQ _ Hlocal _.
  pose proof (flat_local_metadata_ok _ Hlocal) as Hl.
  destruct (aggregator_report_data_ok io_event Q enhanced_query web_results
              local_results final_answer grouped previous follow_up Hl)
    as (full & Hfull & Hok).
  exists (String.concat "" (output (markdown_chunks (final_report_data final_answer)))),
         (String.concat LF (output (adoc_lines (final_report_data final_answer)))),
         (String.concat "" (output (markdown_chunks full))),
         (String.concat LF (output (adoc_lines full))).
  cbv zeta.
  assert (Htrace :
    aggregate_results Q enhanced_query web_results local_results final_answer
      config grouped previous follow_up =
    ([ Makedirs (B ++ "/" ++ Q) true;
       WriteFile (B ++ "/" ++ Q ++ "/" ++ "final_report.md")
         (String.concat "" (output (markdown_chunks (final_report_data final_answer))));
       WriteFile (B ++ "/" ++ Q ++ "/" ++ "final_report.adoc")
         (String.concat LF (output (adoc_lines (final_report_data final_answer))));
       WriteFile (B ++ "/" ++ Q ++ "/" ++ Q ++ "_output.md")
         (String.concat "" (output (markdown_chunks full)));
       WriteFile (B ++ "/" ++ Q ++ "/" ++ Q ++ "_output.adoc")
         (String.concat LF (output (adoc_lines full))) ],
     inr (B ++ "/" ++ Q ++ "/" ++ Q ++ "_output.md"))).
  { destruct (output_dir_plain B Q HB HQ) as (Hdir & Hfile).
    destruct (relative_name_inv _ HQ) as (HQ1 & HQ2 & _).
    pose proof (eqb_empty_false _ HQ1) as HQne.
    unfold aggregate_results. rewrite Hcfg. cbn [as_path].
    rewrite bind_ret_l. cbv zeta. rewrite Hdir.
    rewrite (Hfile "final_report.md" eq_refl), (Hfile "final_report.adoc" eq_refl).
    rewrite (Hfile (Q ++ "_output.md")), (Hfile (Q ++ "_output.adoc"));
      try (rewrite startswith_slash_app; assumption).
    rewrite Hfull, bind_ret_l.
    rewrite (write_markdown_report_ok (final_report_data final_answer) _ eq_refl).
    rewrite (write_asciidoc_report_ok (final_report_data final_answer) _ eq_refl).
    rewrite (write_markdown_report_ok full _ Hok).
    rewrite (write_asciidoc_report_ok full _ Hok).
    reflexivity. }
  unfold aggregate_results_on. rewrite Htrace. split; [| split].
  - intros Hacc. now apply run_on_accepted.
  - intros done ev rest e Hcalls Hacc He.
    now apply (run_on_refused os _ done ev rest e).
  - intros Hnone. rewrite (get_default_none _ _ _ Hnone) in Hcfg. congruence.
Qed.

Lemma C9_four_files_written_witness :
  exists t1 t2 t3 t4,
    aggregate_results_on os_always "q1" "why"
      [ [("url", PStr "u"); ("snippet", PStr "s")] ]
      [ [("metadata", PDict [("file_path", PStr "a.pdf"); ("page", PInt 3)])] ]
      "42" [] None None None
    = ([ Makedirs "results/q1" true;
         WriteFile "results/q1/final_report.md" t1;
         WriteFile "results/q1/final_report.adoc" t2;
         WriteFile "results/q1/q1_output.md" t3;
         WriteFile "results/q1/q1_output.adoc" t4 ],
       inr "results/q1/q1_output.md").
Proof.
  destruct (C9_four_files_written os_always "results" "q1" "why"
              [ [("url", PStr "u"); ("snippet", PStr "s")] ]
              [ [("metadata", PDict [("file_path", PStr "a.pdf"); ("page", PInt 3)])] ]
              "42" [] None None None
              eq_refl eq_refl eq_refl eq_refl eq_refl eq_refl)
    as (t1 & t2 & t3 & t4 & Hrun & _).
  exists t1, t2, t3, t4. apply Hrun. intros done ev rest _. reflexivity.
Defined.

(** * Further properties of the renderers and of the builder *)

Lemma for_each_emit {E A : Type} (l : list A) (f : A -> E) :
  for_each l (fun x => emit (f x)) = (map f l, inr tt).
Proof.
  induction l as [| x l IH]; [reflexivity |].
  cbn [for_each map]. now rewrite bind_emit, IH.
Qed.

Lemma for_each_app {E A : Type} (l1 l2 : list A) (body : A -> W E unit) :
  for_each (l1 ++ l2) body = (for_each l1 body ;;; for_each l2 body).
Proof.
  induction l1 as [| x l1 IH]; cbn [for_each app].
  - now rewrite bind_ret_l.
  - now rewrite bind_assoc, IH.
Qed.


(** X2.  The Markdown report of two reports put end to end is the first
    report followed by the second; when the first raises, the second is
    never rendered. *)
Theorem markdown_chunks_concat (a b : list pydict) :
  (result (markdown_chunks a) = inr tt ->
   output (markdown_chunks (a ++ b)) =
     (output (markdown_chunks a) ++ output (markdown_chunks b))%list
   /\ result (markdown_chunks (a ++ b)) = result (markdown_chunks b))
  /\ (forall e, result (markdown_chunks a) = inl e ->
       markdown_chunks (a ++ b) = markdown_chunks a).
Proof.
  unfold markdown_chunks. rewrite for_each_app.
  destruct (for_each a md_section) as [out [e | []]]; split.
  - discriminate.
  - reflexivity.
  - intros _. split; reflexivity.
  - discriminate.
Qed.

Lemma markdown_chunks_concat_witness :
  (output (markdown_chunks
             ([ [("level", PInt 1); ("title", PStr "A")] ]
                ++ [ [("level", PInt 2); ("title", PStr "B"); ("content", PStr "b")] ])) =
     (output (markdown_chunks [ [("level", PInt 1); ("title", PStr "A")] ])
        ++ output (markdown_chunks
                     [ [("level", PInt 2); ("title", PStr "B"); ("content", PStr "b")] ]))%list
   /\ result (markdown_chunks
                ([ [("level", PInt 1); ("title", PStr "A")] ]
                   ++ [ [("level", PInt 2); ("title", PStr "B"); ("content", PStr "b")] ]))
      = result (markdown_chunks
                  [ [("level", PInt 2); ("title", PStr "B"); ("content", PStr "b")] ]))
  /\ markdown_chunks
       ([ [("title", PStr "A"); ("level", PStr "one")] ]
          ++ [ [("level", PInt 2); ("title", PStr "B")] ])
     = markdown_chunks [ [("title", PStr "A"); ("level", PStr "one")] ].
Proof.
  split.
  - apply (proj1 (markdown_chunks_concat
                    [ [("level", PInt 1); ("title", PStr "A")] ]
                    [ [("level", PInt 2); ("title", PStr "B"); ("content", PStr "b")] ])).
    reflexivity.
  - apply (proj2 (markdown_chunks_concat
                    [ [("title", PStr "A"); ("level", PStr "one")] ]
                    [ [("level", PInt 2); ("title", PStr "B")] ]) TypeError).
    reflexivity.
Defined.


(** What the operating system does with a writer that makes one call. *)
Lemma run_on_single {A : Type} (os : os_answers) (m : W io_event A)
    (ev : io_event) (r : pyexc + A) :
  m = ([ev], r) ->
  (os [] ev = None -> run_on os m = ([ev], r))
  /\ (forall e, os [] ev = Some e -> run_on os m = ([], inl e)).
Proof.
  intros ->. unfold run_on. cbn [output fst run_events]. split.
  - intros ->. reflexivity.
  - intros e ->. reflexivity.
Qed.






Lemma first_h1_title_raises (report_data : list pydict) (e : pyexc) :
  result (first_h1_title report_data) = inl e -> e = KeyError "title".
Proof.
  induction report_data as [| s rest IH]; cbn [first_h1_title]; [discriminate |].
  destruct (py_eq (get_none s "level") (PInt 1)); [| exact IH].
  destruct (dict_get s "title"); [discriminate |].
  cbn. congruence.
Qed.

Lemma first_h1_title_silent (report_data : list pydict) :
  output (first_h1_title report_data) = [].
Proof.
  induction report_data as [| s rest IH]; cbn [first_h1_title]; [reflexivity |].
  destruct (py_eq (get_none s "level") (PInt 1)); [| exact IH].
  now destruct (dict_get s "title").
Qed.






(** ** Where a [KeyError] can come from *)

Lemma nke_ret {E A : Type} (a : A) : no_key_error (ret (E:=E) a).
Proof. intros k. discriminate. Qed.

Lemma nke_emit {E : Type} (x : E) : no_key_error (emit x).
Proof. intros k. discriminate. Qed.

Lemma nke_type_error {E A : Type} : no_key_error (raise (E:=E) (A:=A) TypeError).
Proof. intros k. discriminate. Qed.

Lemma nke_attribute_error {E A : Type} :
  no_key_error (raise (E:=E) (A:=A) AttributeError).
Proof. intros k. discriminate. Qed.

Lemma nke_overflow_error {E A : Type} :
  no_key_error (raise (E:=E) (A:=A) OverflowError).
Proof. intros k. discriminate. Qed.

Lemma nke_bind {E A B : Type} (m : W E A) (f : A -> W E B) :
  no_key_error m -> (forall a, no_key_error (f a)) -> no_key_error (bind m f).
Proof.
  intros Hm Hf k. rewrite result_bind.
  destruct (result m) as [e | a] eqn:Hr.
  - intros [= ->]. exact (Hm k Hr).
  - apply Hf.
Qed.

Lemma nke_when {E : Type} (c : bool) (m : W E unit) :
  no_key_error m -> no_key_error (when c m).
Proof. destruct c; [auto | intros _; apply nke_ret]. Qed.

Lemma nke_for_each {E A : Type} (l : list A) (body : A -> W E unit) :
  (forall x, no_key_error (body x)) -> no_key_error (for_each l body).
Proof.
  intros H. induction l as [| x l IH]; cbn [for_each].
  - apply nke_ret.
  - apply nke_bind; auto.
Qed.

Create HintDb nke.
#[local] Hint Resolve nke_ret nke_emit nke_type_error nke_attribute_error
  nke_when nke_for_each : nke.

Ltac nke_step :=
  repeat (apply nke_bind; [| intros ]); auto with nke.

Lemma nke_py_mul {E : Type} (c : ascii) (v : pyval) : no_key_error (py_mul (E:=E) c v).
Proof.
  destruct v; cbn [py_mul]; auto with nke.
  destruct (Z.leb z sys_maxsize); [apply nke_ret | apply nke_overflow_error].
Qed.

Lemma nke_py_succ {E : Type} (v : pyval) : no_key_error (py_succ (E:=E) v).
Proof. destruct v; cbn; auto with nke. Qed.

Lemma nke_py_strip {E : Type} (v : pyval) : no_key_error (py_strip (E:=E) v).
Proof. destruct v; cbn; auto with nke. Qed.

Lemma nke_py_iter {E : Type} (v : pyval) : no_key_error (py_iter (E:=E) v).
Proof. destruct v; cbn; auto with nke. Qed.

Lemma nke_as_dict {E : Type} (v : pyval) : no_key_error (as_dict (E:=E) v).
Proof. destruct v; cbn; auto with nke. Qed.

#[local] Hint Resolve nke_py_mul nke_py_succ nke_py_strip nke_py_iter nke_as_dict : nke.

Lemma nke_md_item (d : pydict) (item : pyval) : no_key_error (md_item d item).
Proof. unfold md_item. nke_step. Qed.

Lemma nke_adoc_item (d : pydict) (item : pyval) : no_key_error (adoc_item d item).
Proof. unfold adoc_item. nke_step. Qed.

#[local] Hint Resolve nke_md_item nke_adoc_item : nke.

Lemma nke_md_section (section : pydict) : no_key_error (md_section section).
Proof.
  unfold md_section, md_heading, md_content. apply nke_bind; [| intros _].
  - apply nke_when. nke_step.
  - destruct (get_default section "content" (PStr "")) as [| z | t | l | d].
    + destruct (truthy PNone); nke_step.
    + destruct (truthy (PInt z)); nke_step.
    + destruct (truthy (PStr t)); nke_step.
    + nke_step.
    + nke_step.
Qed.

Lemma nke_adoc_content (h1 : pyval) (skipped : bool) (level title content : pyval) :
  no_key_error (adoc_content h1 skipped level title content).
Proof.
  unfold adoc_content.
  destruct (adoc_dispatch h1 skipped level title content); nke_step.
Qed.

Lemma nke_adoc_heading (h1 : pyval) (skipped : bool) (level title : pyval) :
  no_key_error (adoc_heading h1 skipped level title).
Proof.
  unfold adoc_heading.
  destruct (is_first_h1 h1 skipped level title); [apply nke_ret |].
  destruct (truthy title); nke_step.
Qed.

#[local] Hint Resolve nke_md_section nke_adoc_content nke_adoc_heading : nke.

Lemma nke_adoc_loop (h1 : pyval) (report_data : list pydict) :
  forall skipped, no_key_error (adoc_loop h1 skipped report_data).
Proof.
  induction report_data as [| s rest IH]; intros skipped; cbn [adoc_loop].
  - apply nke_ret.
  - apply nke_bind; [| intros sk; apply IH].
    unfold adoc_section. nke_step.
Qed.

Lemma first_h1_title_raises_inv (report_data : list pydict) (e : pyexc) :
  result (first_h1_title report_data) = inl e -> untitled_first_h1 report_data.
Proof.
  induction report_data as [| s rest IH]; cbn [first_h1_title]; [discriminate |].
  destruct (py_eq (get_none s "level") (PInt 1)) eqn:Hl.
  - destruct (dict_get s "title") eqn:Ht; [discriminate |]. intros _.
    exists [], s, rest. repeat split; auto.
  - intros H. destruct (IH H) as (pre & s' & post & -> & Hpre & Hs & Ht).
    exists (s :: pre), s', post. repeat split; auto.
Qed.

Lemma write_asciidoc_report_result (report_data : list pydict) (path : string) :
  result (_write_asciidoc_report report_data path) = result (adoc_lines report_data).
Proof.
  unfold _write_asciidoc_report.
  now destruct (adoc_lines report_data) as [lines [e | []]].
Qed.

(** X5.  The Markdown writer never raises [KeyError]; the AsciiDoc writer
    raises one exactly when the first section whose level is 1 has no
    [title] key, and the key it names is then "title". *)
Theorem key_error_only_from_untitled_first_h1 (report_data : list pydict) (md adoc : string) :
  (forall k, result (_write_markdown_report report_data md) <> inl (KeyError k))
  /\ ((exists k, result (_write_asciidoc_report report_data adoc) = inl (KeyError k))
      <-> untitled_first_h1 report_data)
  /\ (forall k, result (_write_asciidoc_report report_data adoc) = inl (KeyError k) ->
                k = "title").
Proof.
  assert (Hscan : forall k, result (adoc_lines report_data) = inl (KeyError k) ->
                            result (first_h1_title report_data) = inl (KeyError k)).
  { intros k. unfold adoc_lines. rewrite result_bind.
    destruct (result (first_h1_title report_data)) as [e | h1]; [congruence |].
    intros H. exfalso. revert H.
    assert (Hn : no_key_error
                   (when (truthy h1) (emit ("= " ++ py_str h1 ++ LF)) ;;;
                    adoc_loop h1 false report_data ;;; ret tt)).
    { apply nke_bind; [auto with nke | intros _].
      apply nke_bind; [apply nke_adoc_loop | intros _; apply nke_ret]. }
    apply Hn. }
  split; [| split].
  - intros k. unfold _write_markdown_report, result. cbn [snd].
    apply (nke_for_each report_data md_section nke_md_section).
  - rewrite write_asciidoc_report_result. split.
    + intros (k & H). exact (first_h1_title_raises_inv _ _ (Hscan k H)).
    + intros (pre & s & post & -> & Hpre & Hs & Ht).
      exists "title". unfold adoc_lines.
      rewrite result_bind, (first_h1_title_app pre (s :: post) Hpre).
      cbn [first_h1_title]. now rewrite Hs, Ht.
  - intros k. rewrite write_asciidoc_report_result. intros H.
    pose proof (first_h1_title_raises _ _ (Hscan k H)) as Hk. congruence.
Qed.

(** ** Items, texts and titles at the edges *)



Lemma lstrip_all_space (s : string) : all_space s = true -> lstrip s = "".
Proof.
  induction s as [| c s IH]; [reflexivity |].
  cbn [all_space lstrip]. intros H. apply andb_prop in H. destruct H as [Hc Hs].
  rewrite Hc. exact (IH Hs).
Qed.

(** X7.  A text content made of white space only is not an empty content:
    both renderers write an empty paragraph for it and no placeholder. *)
Theorem blank_text_is_an_empty_paragraph
    (h1 : pyval) (skipped : bool) (level title : pyval) (s : string) :
  s <> "" ->
  all_space s = true ->
  md_content title (PStr s) = ([LF ++ LF], inr tt)
  /\ adoc_content h1 skipped level title (PStr s) = ([LF], inr tt).
Proof.
  intros Hs Hspace.
  assert (Hstrip : strip s = "") by (unfold strip; now rewrite lstrip_all_space).
  split.
  - cbn [md_content]. rewrite (truthy_str s Hs). cbn [py_strip].
    now rewrite bind_ret_l, Hstrip.
  - unfold adoc_content, adoc_dispatch. rewrite (truthy_str s Hs). cbn [py_strip].
    now rewrite bind_ret_l, Hstrip.
Qed.

Lemma blank_text_is_an_empty_paragraph_witness :
  md_content (PStr "T") (PStr ("  " ++ LF)) = ([LF ++ LF], inr tt)
  /\ adoc_content (PStr "T") true (PInt 2) (PStr "T") (PStr ("  " ++ LF)) = ([LF], inr tt).
Proof.
  apply (blank_text_is_an_empty_paragraph (PStr "T") true (PInt 2) (PStr "T") ("  " ++ LF)).
  - discriminate.
  - reflexivity.
Defined.






(** ** The two answer-only files *)

Lemma answer_only_calls (final_answer md adoc : string) :
  _write_markdown_report (final_report_data final_answer) md =
    ([WriteFile md
        ("# Final Aggregated Answer (RAG)" ++ LF ++ LF
           ++ (if String.eqb final_answer "" then "_No content for this section._"
               else strip final_answer) ++ LF ++ LF)], inr tt)
  /\ _write_asciidoc_report (final_report_data final_answer) adoc =
    ([WriteFile adoc
        ("= Final Aggregated Answer (RAG)" ++ LF
           ++ (if String.eqb final_answer "" then ""
               else LF ++ replace_bold (strip final_answer) ++ LF))], inr tt).
Proof.
  destruct (String.eqb final_answer "") eqn:E.
  - apply String.eqb_eq in E. subst final_answer. split; reflexivity.
  - split.
    + unfold _write_markdown_report, markdown_chunks, final_report_data.
      cbn [for_each]. unfold md_section, md_heading, md_content.
      cbn [get_default dict_get String.eqb Ascii.eqb Bool.eqb truthy negb when
           py_mul py_strip py_str].
      rewrite E. cbn [negb]. rewrite !bind_ret_l. reflexivity.
    + unfold _write_asciidoc_report, adoc_lines, final_report_data.
      cbn [first_h1_title get_none get_default dict_get String.eqb Ascii.eqb
           Bool.eqb py_eq Z.eqb Pos.eqb].
      rewrite bind_ret_l. cbn [truthy String.eqb negb when py_str adoc_loop].
      unfold adoc_section, adoc_heading, adoc_content, adoc_dispatch, is_first_h1.
      cbn [get_default dict_get String.eqb Ascii.eqb Bool.eqb py_eq Z.eqb Pos.eqb
           andb negb truthy py_strip].
      rewrite E. cbn [negb]. rewrite !bind_ret_l. reflexivity.
Qed.

(** X9.  The answer-only files, when they can be opened: the Markdown file
    is the heading, then the trimmed answer; the AsciiDoc file is the
    document-title line, then the trimmed answer with the bold mark
    translated.  For an empty answer the Markdown file carries the
    placeholder paragraph and the AsciiDoc file the title line alone.  A
    file that cannot be opened ends the writer with the exception of the
    operating system. *)
Theorem answer_only_files (os : os_answers) (final_answer md adoc : string) :
  let md_text :=
    "# Final Aggregated Answer (RAG)" ++ LF ++ LF
      ++ (if String.eqb final_answer "" then "_No content for this section._"
          else strip final_answer) ++ LF ++ LF in
  let adoc_text :=
    "= Final Aggregated Answer (RAG)" ++ LF
      ++ (if String.eqb final_answer "" then ""
          else LF ++ replace_bold (strip final_answer) ++ LF) in
  (os [] (WriteFile md md_text) = None ->
   run_on os (_write_markdown_report (final_report_data final_answer) md)
   = ([WriteFile md md_text], inr tt))
  /\ (forall e, os [] (WriteFile md md_text) = Some e ->
                run_on os (_write_markdown_report (final_report_data final_answer) md)
                = ([], inl e))
  /\ (os [] (WriteFile adoc adoc_text) = None ->
      run_on os (_write_asciidoc_report (final_report_data final_answer) adoc)
      = ([WriteFile adoc adoc_text], inr tt))
  /\ (forall e, os [] (WriteFile adoc adoc_text) = Some e ->
                run_on os (_write_asciidoc_report (final_report_data final_answer) adoc)
                = ([], inl e)).
Proof.
  intros md_text adoc_text.
  destruct (answer_only_calls final_answer md adoc) as (Hm & Ha).
  destruct (run_on_single os _ _ _ Hm) as (Hm1 & Hm2).
  destruct (run_on_single os _ _ _ Ha) as (Ha1 & Ha2).
  repeat split; auto.
Qed.

Lemma answer_only_files_witness :
  run_on os_always (_write_markdown_report (final_report_data " 42 **b** ") "final_report.md")
  = ([WriteFile "final_report.md"
        ("# Final Aggregated Answer (RAG)" ++ LF ++ LF ++ "42 **b**" ++ LF ++ LF)], inr tt)
  /\ run_on os_always
       (_write_asciidoc_report (final_report_data " 42 **b** ") "final_report.adoc")
  = ([WriteFile "final_report.adoc"
        ("= Final Aggregated Answer (RAG)" ++ LF ++ LF ++ "42 *b*" ++ LF)], inr tt)
  /\ run_on (fun _ _ => Some (OSError "FileNotFoundError"))
       (_write_markdown_report (final_report_data "") "")
  = ([], inl (OSError "FileNotFoundError")).
Proof.
  destruct (answer_only_files os_always " 42 **b** " "final_report.md" "final_report.adoc")
    as (Hm & _ & Ha & _).
  destruct (answer_only_files (fun _ _ => Some (OSError "FileNotFoundError")) "" "" "")
    as (_ & Hr & _).
  split; [exact (Hm eq_refl) |]. split; [exact (Ha eq_refl) |].
  exact (Hr _ eq_refl).
Defined.

(** ** Sections that state no level *)

Lemma first_h1_title_no_level (report_data : list pydict) :
  Forall (fun s => dict_get s "level" = None) report_data ->
  first_h1_title report_data = ret PNone.
Proof.
  induction 1 as [| s rest Hs _ IH]; [reflexivity |].
  cbn [first_h1_title]. unfold get_none. now rewrite (get_default_none _ _ _ Hs).
Qed.

(** X10.  A section without a [level] key is rendered at level 1, but the
    pre-scan does not take it for a level-1 section: a report in which no
    section states its level has no document-title line, and each titled
    section is a body heading [== T] (Markdown: [# T]). *)
Theorem sections_without_level_give_no_document_title (report_data : list pydict) :
  Forall (fun s => dict_get s "level" = None) report_data ->
  adoc_lines report_data = (adoc_loop PNone false report_data ;;; ret tt)
  /\ forall s T skipped,
       In s report_data ->
       get_default s "title" (PStr "") = PStr T ->
       T <> "" ->
       (exists rest, output (md_section s) = ("# " ++ T ++ LF ++ LF) :: rest)
       /\ (exists rest,
             output (adoc_section PNone skipped s) = ("== " ++ T ++ LF) :: rest).
Proof.
  intros Hall. split.
  - unfold adoc_lines. rewrite (first_h1_title_no_level _ Hall), bind_ret_l.
    cbn [truthy when]. now rewrite bind_ret_l.
  - intros s T skipped Hin Ht HT.
    pose proof (proj1 (Forall_forall _ _) Hall s Hin) as Hl. cbn beta in Hl.
    split.
    + unfold md_section. rewrite (get_default_none _ _ _ Hl), Ht.
      unfold md_heading. rewrite (truthy_str T HT).
      cbn [when py_str]. rewrite py_mul_1, bind_ret_l, bind_emit.
      eexists. reflexivity.
    + unfold adoc_section. rewrite (get_default_none _ _ _ Hl), Ht.
      unfold adoc_heading, is_first_h1. cbn [py_eq Z.eqb Pos.eqb andb].
      rewrite (truthy_str T HT).
      cbn [py_succ]. rewrite bind_ret_l. change (PInt (1 + 1)) with (PInt 2).
      rewrite py_mul_2. cbn [py_str]. rewrite bind_ret_l.
      rewrite bind_assoc, bind_emit. eexists. reflexivity.
Qed.

Lemma sections_without_level_give_no_document_title_witness :
  adoc_lines [ [("title", PStr "Notes"); ("content", PStr "n")] ] =
    (adoc_loop PNone false [ [("title", PStr "Notes"); ("content", PStr "n")] ] ;;; ret tt)
  /\ forall s T skipped,
       In s [ [("title", PStr "Notes"); ("content", PStr "n")] ] ->
       get_default s "title" (PStr "") = PStr T ->
       T <> "" ->
       (exists rest, output (md_section s) = ("# " ++ T ++ LF ++ LF) :: rest)
       /\ (exists rest,
             output (adoc_section PNone skipped s) = ("== " ++ T ++ LF) :: rest).
Proof.
  apply (sections_without_level_give_no_document_title
           [ [("title", PStr "Notes"); ("content", PStr "n")] ]).
  constructor; [reflexivity | constructor].
Defined.

(** ** A later section that repeats the document title *)

(** X11.  After the title section was elided, a level-1 section with the
    same title T and an empty text gets its heading [== T] and nothing
    under it, where the Markdown report writes the placeholder; with any
    other non-empty title the AsciiDoc report writes the placeholder too. *)
Theorem repeated_title_has_no_placeholder (s : pydict) (T U : string) :
  T <> "" ->
  U <> "" ->
  get_default s "level" (PInt 1) = PInt 1 ->
  get_default s "title" (PStr "") = PStr U ->
  get_default s "content" (PStr "") = PStr "" ->
  md_section s =
    ([ "# " ++ U ++ LF ++ LF; "_No content for this section._" ++ LF ++ LF ], inr tt)
  /\ adoc_section (PStr T) true s =
    (if String.eqb U T
     then [ "== " ++ U ++ LF ]
     else [ "== " ++ U ++ LF; "_No content for this section._" ++ LF ], inr true).
Proof.
  intros HT HU Hl Ht Hc. split.
  - unfold md_section. rewrite Hl, Ht, Hc. unfold md_heading, md_content.
    rewrite (truthy_str U HU). cbn [when py_str truthy String.eqb negb].
    rewrite py_mul_1, bind_ret_l. reflexivity.
  - unfold adoc_section. rewrite Hl, Ht, Hc.
    unfold adoc_heading, adoc_content, adoc_dispatch, is_first_h1.
    rewrite (truthy_str U HU).
    cbn [py_eq Z.eqb Pos.eqb andb negb truthy String.eqb py_succ].
    rewrite andb_false_r, bind_ret_l. change (PInt (1 + 1)) with (PInt 2).
    rewrite py_mul_2. cbn [py_str]. rewrite bind_ret_l.
    rewrite bind_assoc, bind_emit, bind_ret_l, andb_true_r.
    destruct (String.eqb U T); reflexivity.
Qed.

Lemma repeated_title_has_no_placeholder_witness :
  md_section [("level", PInt 1); ("title", PStr "Report")] =
    ([ "# " ++ "Report" ++ LF ++ LF; "_No content for this section._" ++ LF ++ LF ],
     inr tt)
  /\ adoc_section (PStr "Report") true [("level", PInt 1); ("title", PStr "Report")] =
    (if String.eqb "Report" "Report"
     then [ "== " ++ "Report" ++ LF ]
     else [ "== " ++ "Report" ++ LF; "_No content for this section._" ++ LF ], inr true).
Proof.
  apply (repeated_title_has_no_placeholder
           [("level", PInt 1); ("title", PStr "Report")] "Report" "Report").
  - discriminate.
  - discriminate.
  - reflexivity.
  - reflexivity.
  - reflexivity.
Defined.

(** ** Web results, from the builder to the reports *)







(** ** The opening of the full report *)

Lemma markdown_opening (query_id enhanced_query : string) (tl : list pydict) :
  exists rest,
    output (markdown_chunks
              ([("level", PInt 1);
                ("title", PStr ("Aggregated Results for Query ID: " ++ query_id))]
               :: [("level", PInt 2); ("title", PStr "Enhanced Query");
                   ("content", PStr enhanced_query)] :: tl)) =
      ("# Aggregated Results for Query ID: " ++ query_id ++ LF ++ LF)
      :: ("_No content for this section._" ++ LF ++ LF)
      :: ("## Enhanced Query" ++ LF ++ LF) :: rest.
Proof.
  unfold markdown_chunks. cbn [for_each].
  change (md_section [("level", PInt 1);
                      ("title", PStr ("Aggregated Results for Query ID: " ++ query_id))])
    with (emit ("# Aggregated Results for Query ID: " ++ query_id ++ LF ++ LF) ;;;
          emit ("_No content for this section._" ++ LF ++ LF)).
  rewrite bind_assoc, bind_emit. unfold output at 1. cbn [fst].
  rewrite bind_emit. unfold output at 1. cbn [fst].
  unfold md_section at 1.
  change (md_heading _ _) with (emit ("## Enhanced Query" ++ LF ++ LF)).
  rewrite !bind_assoc, bind_emit. unfold output at 1. cbn [fst].
  eexists. reflexivity.
Qed.

Lemma adoc_opening (t enhanced_query : string) (tl : list pydict) :
  t <> "" ->
  exists rest,
    output (adoc_lines
              ([("level", PInt 1); ("title", PStr t)]
               :: [("level", PInt 2); ("title", PStr "Enhanced Query");
                   ("content", PStr enhanced_query)] :: tl)) =
      ("= " ++ t ++ LF) :: ("=== Enhanced Query" ++ LF) :: rest.
Proof.
  intros Ht. unfold adoc_lines.
  change (first_h1_title _) with (ret (E:=string) (PStr t)).
  rewrite bind_ret_l, (truthy_str t Ht).
  cbn [when py_str]. rewrite bind_emit. unfold output at 1. cbn [fst].
  cbn [adoc_loop]. unfold adoc_section at 1.
  cbn [get_default dict_get String.eqb Ascii.eqb Bool.eqb].
  unfold adoc_heading at 1, is_first_h1. rewrite py_eq_str_refl.
  cbn [py_eq Z.eqb Pos.eqb andb negb]. rewrite bind_ret_l.
  unfold adoc_content at 1, adoc_dispatch. rewrite py_eq_str_refl.
  cbn [py_eq Z.eqb Pos.eqb andb negb truthy String.eqb].
  rewrite andb_false_r. rewrite !bind_ret_l.
  unfold adoc_section at 1.
  change (adoc_heading _ true _ _) with (emit ("=== Enhanced Query" ++ LF) ;;; ret true).
  rewrite !bind_assoc, bind_emit. unfold output at 1. cbn [fst].
  eexists. reflexivity.
Qed.

(** X13.  The full report always opens, in Markdown, with the heading
    naming the query, the placeholder paragraph (the first section has no
    content) and the "Enhanced Query" heading; in AsciiDoc, with the
    document-title line naming the query, directly followed by the
    "Enhanced Query" heading, without a placeholder. *)
Theorem full_report_opening (E : Type)
    (query_id enhanced_query : string) (web_results local_results : list pydict)
    (final_answer : string) (grouped : option (list (string * list pydict)))
    (previous follow_up : option string) (full : list pydict) :
  result (aggregator_report_data (E:=E) query_id enhanced_query web_results
            local_results final_answer grouped previous follow_up) = inr full ->
  (exists rest,
     output (markdown_chunks full) =
       ("# Aggregated Results for Query ID: " ++ query_id ++ LF ++ LF)
       :: ("_No content for this section._" ++ LF ++ LF)
       :: ("## Enhanced Query" ++ LF ++ LF) :: rest)
  /\ (exists rest,
        output (adoc_lines full) =
          ("= Aggregated Results for Query ID: " ++ query_id ++ LF)
          :: ("=== Enhanced Query" ++ LF) :: rest).
Proof.
  intros H.
  destruct (aggregator_report_data_inv _ _ _ _ _ _ _ _ _ _ H) as (lc & _ & ->).
  cbn [app]. split; [apply markdown_opening |].
  apply (adoc_opening ("Aggregated Results for Query ID: " ++ query_id)).
  discriminate.
Qed.

Lemma full_report_opening_witness :
  (exists rest,
     output (markdown_chunks
               [ [("level", PInt 1); ("title", PStr "Aggregated Results for Query ID: q1")];
                 [("level", PInt 2); ("title", PStr "Enhanced Query"); ("content", PStr "why")];
                 [("level", PInt 1); ("title", PStr "Final Aggregated Answer (RAG)");
                  ("content", PStr "42")];
                 [("level", PInt 2); ("title", PStr "Web Search Results");
                  ("content", PStr "_No web results found_")];
                 [("level", PInt 2); ("title", PStr "Local Retrieval Results");
                  ("content", PStr "_No local results found_")] ]) =
       ("# Aggregated Results for Query ID: " ++ "q1" ++ LF ++ LF)
       :: ("_No content for this section._" ++ LF ++ LF)
       :: ("## Enhanced Query" ++ LF ++ LF) :: rest)
  /\ (exists rest,
        output (adoc_lines
               [ [("level", PInt 1); ("title", PStr "Aggregated Results for Query ID: q1")];
                 [("level", PInt 2); ("title", PStr "Enhanced Query"); ("content", PStr "why")];
                 [("level", PInt 1); ("title", PStr "Final Aggregated Answer (RAG)");
                  ("content", PStr "42")];
                 [("level", PInt 2); ("title", PStr "Web Search Results");
                  ("content", PStr "_No web results found_")];
                 [("level", PInt 2); ("title", PStr "Local Retrieval Results");
                  ("content", PStr "_No local results found_")] ]) =
          ("= Aggregated Results for Query ID: " ++ "q1" ++ LF)
          :: ("=== Enhanced Query" ++ LF) :: rest).
Proof.
  apply (full_report_opening io_event "q1" "why" [] [] "42" None None None).
  reflexivity.
Defined.

(** ** What a call of [aggregate_results] can do *)

Lemma local_entries_bad (E : Type) (local_results : list pydict) :
  forallb metadata_ok local_results = false ->
  local_entries (E:=E) local_results = raise AttributeError.
Proof.
  induction local_results as [| doc rest IH]; [discriminate |].
  cbn [forallb local_entries]. unfold local_entry, metadata_ok.
  destruct (get_default doc "metadata" (PDict [])) as [| | | | meta];
    try reflexivity.
  cbn [isinstance_dict andb as_dict]. intros H.
  now rewrite !bind_ret_l, (IH H).
Qed.

Lemma aggregator_report_data_bad (E : Type)
    (query_id enhanced_query : string) (web_results local_results : list pydict)
    (final_answer : string) (grouped : option (list (string * list pydict)))
    (previous follow_up : option string) :
  forallb metadata_ok local_results = false ->
  aggregator_report_data (E:=E) query_id enhanced_query web_results local_results
    final_answer grouped previous follow_up = raise AttributeError.
Proof.
  intros H. unfold aggregator_report_data, local_section_content.
  destruct local_results as [| doc rest]; [discriminate |].
  now rewrite (local_entries_bad E _ H).
Qed.

(** X14.  How a call ends.  A base directory that is no string:
    [TypeError] before any call to the operating system.  The directory
    cannot be made: the exception of the operating system, nothing done.
    The directory made and a local result whose metadata is no dictionary:
    [AttributeError], no file opened.  With flat results, the four files
    are opened in order after the directory; the call returns the path of
    the third when all five calls succeed, and ends at the first call the
    operating system refuses, with its exception: rendering the documents
    built raises nothing. *)
Theorem aggregate_results_outcomes (os : os_answers)
    (query_id enhanced_query : string) (web_results local_results : list pydict)
    (final_answer : string) (config : pydict)
    (grouped : option (list (string * list pydict)))
    (previous follow_up : option string) :
  let base := get_default config "results_base_dir" (PStr "results") in
  let run := aggregate_results_on os query_id enhanced_query web_results local_results
               final_answer config grouped previous follow_up in
  (isinstance_str base = false -> run = ([], inl TypeError))
  /\ (forall B, base = PStr B ->
        let dir := os_path_join B query_id in
        (forall e, os [] (Makedirs dir true) = Some e -> run = ([], inl e))
        /\ (os [] (Makedirs dir true) = None ->
            forallb metadata_ok local_results = false ->
            run = ([Makedirs dir true], inl AttributeError))
        /\ (forallb flat_record web_results = true ->
            forallb flat_local local_results = true ->
            flat_groups grouped = true ->
            exists t1 t2 t3 t4,
              let calls :=
                [ Makedirs dir true;
                  WriteFile (os_path_join dir "final_report.md") t1;
                  WriteFile (os_path_join dir "final_report.adoc") t2;
                  WriteFile (os_path_join dir (query_id ++ "_output.md")) t3;
                  WriteFile (os_path_join dir (query_id ++ "_output.adoc")) t4 ] in
              (os_accepts os calls ->
               run = (calls, inr (os_path_join dir (query_id ++ "_output.md"))))
              /\ (forall done ev rest e,
                    calls = (done ++ ev :: rest)%list ->
                    os_accepts os done ->
                    os done ev = Some e ->
                    run = (done, inl e)))).
Proof.
  intros base run. subst run base. unfold aggregate_results_on, aggregate_results.
  split.
  - intros Hb.
    destruct (get_default config "results_base_dir" (PStr "results"));
      try discriminate; reflexivity.
  - intros B HB. rewrite HB. cbn [as_path]. rewrite bind_ret_l. cbv zeta.
    set (dir := os_path_join B query_id).
    assert (Hbad : forallb metadata_ok local_results = false ->
              (emit (Makedirs dir true) ;;;
               full <- aggregator_report_data query_id enhanced_query web_results
                         local_results final_answer grouped previous follow_up ;;
               _write_markdown_report (final_report_data final_answer)
                 (os_path_join dir "final_report.md") ;;;
               _write_asciidoc_report (final_report_data final_answer)
                 (os_path_join dir "final_report.adoc") ;;;
               _write_markdown_report full (os_path_join dir (query_id ++ "_output.md")) ;;;
               _write_asciidoc_report full (os_path_join dir (query_id ++ "_output.adoc")) ;;;
               ret (os_path_join dir (query_id ++ "_output.md")))
              = ([Makedirs dir true], inl AttributeError)).
    { intros H. now rewrite (aggregator_report_data_bad io_event _ _ _ _ _ _ _ _ H). }
    assert (Hgood : forallb metadata_ok local_results = true ->
              exists full,
              (emit (Makedirs dir true) ;;;
               full <- aggregator_report_data query_id enhanced_query web_results
                         local_results final_answer grouped previous follow_up ;;
               _write_markdown_report (final_report_data final_answer)
                 (os_path_join dir "final_report.md") ;;;
               _write_asciidoc_report (final_report_data final_answer)
                 (os_path_join dir "final_report.adoc") ;;;
               _write_markdown_report full (os_path_join dir (query_id ++ "_output.md")) ;;;
               _write_asciidoc_report full (os_path_join dir (query_id ++ "_output.adoc")) ;;;
               ret (os_path_join dir (query_id ++ "_output.md")))
              = ([ Makedirs dir true;
                   WriteFile (os_path_join dir "final_report.md")
                     (String.concat ""
                        (output (markdown_chunks (final_report_data final_answer))));
                   WriteFile (os_path_join dir "final_report.adoc")
                     (String.concat LF
                        (output (adoc_lines (final_report_data final_answer))));
                   WriteFile (os_path_join dir (query_id ++ "_output.md"))
                     (String.concat "" (output (markdown_chunks full)));
                   WriteFile (os_path_join dir (query_id ++ "_output.adoc"))
                     (String.concat LF (output (adoc_lines full))) ],
                 inr (os_path_join dir (query_id ++ "_output.md")))).
    { intros Hok.
      destruct (aggregator_report_data_ok io_event query_id enhanced_query web_results
                  local_results final_answer grouped previous follow_up Hok)
        as (full & Hfull & Hshape).
      exists full. rewrite Hfull, bind_ret_l.
      rewrite (write_markdown_report_ok (final_report_data final_answer) _ eq_refl).
      rewrite (write_asciidoc_report_ok (final_report_data final_answer) _ eq_refl).
      rewrite (write_markdown_report_ok full _ Hshape).
      rewrite (write_asciidoc_report_ok full _ Hshape).
      reflexivity. }
    split; [| split].
    + intros e He. destruct (forallb metadata_ok local_results) eqn:Hm.
      * destruct (Hgood eq_refl) as (full & ->).
        unfold run_on. cbn [output fst run_events]. now rewrite He.
      * rewrite (Hbad eq_refl).
        unfold run_on. cbn [output fst run_events]. now rewrite He.
    + intros Hos Hm. rewrite (Hbad Hm).
      exact (proj1 (run_on_single os _ _ _ eq_refl) Hos).
    + intros _ Hlocal _.
      destruct (Hgood (flat_local_metadata_ok _ Hlocal)) as (full & ->).
      exists (String.concat "" (output (markdown_chunks (final_report_data final_answer)))),
             (String.concat LF (output (adoc_lines (final_report_data final_answer)))),
             (String.concat "" (output (markdown_chunks full))),
             (String.concat LF (output (adoc_lines full))).
      cbv zeta. split.
      * intros Hacc. now apply run_on_accepted.
      * intros done ev rest e Hcalls Hacc He.
        now apply (run_on_refused os _ done ev rest e).
Qed.

Lemma aggregate_results_outcomes_witness :
  aggregate_results_on os_always "q1" "why" [] [] "42" [("results_base_dir", PNone)]
    None None None
  = ([], inl TypeError)
  /\ aggregate_results_on os_always "q1" "why" [] [ [("metadata", PStr "a.pdf")] ] "42" []
       None None None
     = ([Makedirs (os_path_join "results" "q1") true], inl AttributeError)
  /\ aggregate_results_on (fun _ _ => Some (OSError "FileNotFoundError")) "" "why" [] []
       "42" [("results_base_dir", PStr "")] None None None
     = ([], inl (OSError "FileNotFoundError"))
  /\ exists t1 t2 t3 t4,
       aggregate_results_on os_always "q1" "why" [] [] "42" [] None None None
       = ([ Makedirs "results/q1" true;
            WriteFile "results/q1/final_report.md" t1;
            WriteFile "results/q1/final_report.adoc" t2;
            WriteFile "results/q1/q1_output.md" t3;
            WriteFile "results/q1/q1_output.adoc" t4 ],
          inr "results/q1/q1_output.md").
Proof.
  split; [| split; [| split]].
  - apply (proj1 (aggregate_results_outcomes os_always "q1" "why" [] [] "42"
                    [("results_base_dir", PNone)] None None None)).
    reflexivity.
  - apply (proj1 (proj2 (proj2 (aggregate_results_outcomes os_always "q1" "why" []
                           [ [("metadata", PStr "a.pdf")] ] "42" [] None None None)
                           "results" eq_refl))).
    + reflexivity.
    + reflexivity.
  - apply (proj1 (proj2 (aggregate_results_outcomes
                           (fun _ _ => Some (OSError "FileNotFoundError")) "" "why" [] []
                           "42" [("results_base_dir", PStr "")] None None None)
                    "" eq_refl)).
    reflexivity.
  - destruct (proj2 (proj2 (proj2 (aggregate_results_outcomes os_always "q1" "why" [] []
                                     "42" [] None None None) "results" eq_refl))
                eq_refl eq_refl eq_refl)
      as (t1 & t2 & t3 & t4 & Hrun & _).
    exists t1, t2, t3, t4. apply Hrun. intros done ev rest _. reflexivity.
Defined.

(** X15.  Grouped results given as an empty dictionary and previous
    results or a follow-up conversation given as an empty text are the same
    as not given: the call makes the same calls to the operating system,
    writes the same texts and returns the same path. *)
Theorem empty_optionals_are_absent
    (query_id enhanced_query : string) (web_results local_results : list pydict)
    (final_answer : string) (config : pydict)
    (grouped : option (list (string * list pydict)))
    (previous follow_up : option string) :
  (grouped = Some [] \/ grouped = None) ->
  (previous = Some "" \/ previous = None) ->
  (follow_up = Some "" \/ follow_up = None) ->
  aggregate_results query_id enhanced_query web_results local_results final_answer
    config grouped previous follow_up
  = aggregate_results query_id enhanced_query web_results local_results final_answer
      config None None None.
Proof. intros [-> | ->] [-> | ->] [-> | ->]; reflexivity. Qed.

Lemma empty_optionals_are_absent_witness :
  aggregate_results "q1" "why" [] [] "42" [] (Some []) (Some "") None
  = aggregate_results "q1" "why" [] [] "42" [] None None None.
Proof.
  apply (empty_optionals_are_absent "q1" "why" [] [] "42" [] (Some []) (Some "") None).
  - now left.
  - now left.
  - now right.
Defined.

(** * Properties of main.py *)

(** X16.  [load_config] never raises, and what it does is fixed by the
    file: the value read, printing nothing, when the file exists and the
    value is true in a condition; the empty dictionary, printing nothing,
    when the value read is false in a condition; the empty dictionary and
    one line on the error stream, naming the path (and the exception),
    when there is no file, when the parser raises, or when anything else
    raises.  So it returns nothing false in a condition but the empty
    dictionary. *)
Theorem load_config_value_or_empty
    (is_file : bool) (loaded : load_outcome) (config_path : string) :
  let run := load_config is_file loaded config_path in
  (is_file = false ->
   run = ([(Stderr, "[WARN] Config file not found at " ++ config_path
                      ++ ". Using defaults.")], inr (PDict [])))
  /\ (forall v, is_file = true -> loaded = Loaded v -> truthy v = true ->
                run = ([], inr v))
  /\ (forall v, is_file = true -> loaded = Loaded v -> truthy v = false ->
                run = ([], inr (PDict [])))
  /\ (forall e, is_file = true -> loaded = YamlError e ->
                run = ([(Stderr, "[ERROR] Error parsing config file " ++ config_path
                                   ++ ": " ++ e)], inr (PDict [])))
  /\ (forall e, is_file = true -> loaded = OtherError e ->
                run = ([(Stderr, "[ERROR] Unexpected error loading config file "
                                   ++ config_path ++ ": " ++ e)], inr (PDict [])))
  /\ (exists config,
        result run = inr config /\ (config = PDict [] \/ truthy config = true)).
Proof.
  intros run. subst run. unfold load_config. repeat split.
  - intros ->. reflexivity.
  - intros v -> -> Hv. cbn [negb]. now rewrite Hv.
  - intros v -> -> Hv. cbn [negb]. now rewrite Hv.
  - intros e -> ->. reflexivity.
  - intros e -> ->. reflexivity.
  - destruct is_file; cbn [negb]; [| exists (PDict []); split; [reflexivity | now left]].
    destruct loaded as [v | e | e];
      try (exists (PDict []); split; [reflexivity | now left]).
    destruct (truthy v) eqn:Hv.
    + exists v. split; [reflexivity | now right].
    + exists (PDict []). split; [reflexivity | now left].
Qed.

Lemma load_config_value_or_empty_witness :
  load_config false (Loaded (PDict [("gemini", PDict [])])) "config.yaml"
  = ([(Stderr, "[WARN] Config file not found at " ++ "config.yaml"
                 ++ ". Using defaults.")], inr (PDict []))
  /\ load_config true (Loaded (PDict [("gemini", PDict [])])) "config.yaml"
     = ([], inr (PDict [("gemini", PDict [])]))
  /\ load_config true (Loaded (PList [])) "config.yaml" = ([], inr (PDict []))
  /\ load_config true (YamlError "bad indent") "config.yaml"
     = ([(Stderr, "[ERROR] Error parsing config file " ++ "config.yaml"
                    ++ ": " ++ "bad indent")], inr (PDict [])).
Proof.
  split; [| split; [| split]].
  - apply (proj1 (load_config_value_or_empty false
                    (Loaded (PDict [("gemini", PDict [])])) "config.yaml")).
    reflexivity.
  - apply (proj1 (proj2 (load_config_value_or_empty true
                           (Loaded (PDict [("gemini", PDict [])])) "config.yaml"))
             (PDict [("gemini", PDict [])])); reflexivity.
  - apply (proj1 (proj2 (proj2 (load_config_value_or_empty true
                                  (Loaded (PList [])) "config.yaml")))
             (PList [])); reflexivity.
  - apply (proj1 (proj2 (proj2 (proj2 (load_config_value_or_empty true
                                         (YamlError "bad indent") "config.yaml"))))
             "bad indent"); reflexivity.
Defined.

(** X17.  Reading the Gemini key raises exactly when the configuration is
    no dictionary or its [gemini] entry is no dictionary, and what it
    raises is [AttributeError]; with a dictionary that has no [gemini]
    entry the key is [None]. *)
Theorem gemini_api_key_raises_iff (config : pyval) :
  ((exists e, result (gemini_api_key (E:=printed) config) = inl e)
   <-> (isinstance_dict config = false
        \/ exists c v, config = PDict c /\ dict_get c "gemini" = Some v
                       /\ isinstance_dict v = false))
  /\ (forall e, result (gemini_api_key (E:=printed) config) = inl e ->
                e = AttributeError)
  /\ (forall c, config = PDict c -> dict_get c "gemini" = None ->
                gemini_api_key (E:=printed) config = ret PNone).
Proof.
  unfold gemini_api_key. split; [| split].
  - split.
    + intros (e & H). destruct config as [| | | | c]; try (now left).
      right. cbn [as_dict] in H. rewrite bind_ret_l in H.
      unfold get_default in H.
      destruct (dict_get c "gemini") as [v |] eqn:Hg.
      * exists c, v. repeat split; auto.
        destruct v; try reflexivity. cbn [as_dict] in H.
        rewrite bind_ret_l in H. discriminate.
      * cbn [as_dict] in H. rewrite bind_ret_l in H. discriminate.
    + intros [H | (c & v & -> & Hg & Hv)].
      * destruct config; try discriminate; now exists AttributeError.
      * cbn [as_dict]. rewrite bind_ret_l, (get_default_some _ _ _ _ Hg).
        destruct v; try discriminate; now exists AttributeError.
  - intros e H. destruct config as [| | | | c]; try (cbv in H; congruence).
    cbn [as_dict] in H. rewrite bind_ret_l in H.
    destruct (get_default c "gemini" (PDict [])); cbv in H; congruence.
  - intros c -> Hg. cbn [as_dict]. rewrite bind_ret_l, (get_default_none _ _ _ Hg).
    cbn [as_dict]. now rewrite bind_ret_l.
Qed.

(** X18.  The names [list_gemini_models] keeps are exactly the names of the
    listed models that support "generateContent", each with the prefix
    "gemini/"; the order of the listing is kept and no name is added. *)
Theorem rag_models_are_the_supporting_models (models : list gemini_model) :
  (forall n,
     In n (rag_models models) <->
     exists m, In m models
               /\ In "generateContent" (supported_generation_methods m)
               /\ n = "gemini/" ++ name m)
  /\ length (rag_models models) <= length models
  /\ (forall a b, rag_models (a ++ b) = (rag_models a ++ rag_models b)%list).
Proof.
  split; [| split].
  - intros n. unfold rag_models. rewrite in_map_iff. split.
    + intros (m & <- & Hm). apply filter_In in Hm. destruct Hm as (Hin & Hs).
      apply existsb_exists in Hs. destruct Hs as (x & Hx & Heq).
      apply String.eqb_eq in Heq. subst x. now exists m.
    + intros (m & Hin & Hs & ->). exists m. split; [reflexivity |].
      apply filter_In. split; [exact Hin |].
      apply existsb_exists. exists "generateContent". split; [exact Hs |].
      apply String.eqb_refl.
  - unfold rag_models. rewrite length_map. apply filter_length_le.
  - intros a b. unfold rag_models. now rewrite filter_app, map_app.
Qed.

Lemma for_each_print (l : list string) :
  for_each l (fun model_name => print ("- " ++ model_name)) =
  (map (fun n => (Stdout, "- " ++ n)) l, inr tt).
Proof. unfold print. apply (for_each_emit l (fun n => (Stdout, "- " ++ n))). Qed.

(** X19.  With the library installed, a key that is true in a condition and
    a listing that succeeds, [list_gemini_models] returns the kept names in
    the order of the listing and prints, on the standard output, the two
    notices, one line per kept name and the example; the printed names are
    the returned names rearranged in increasing order. *)
Theorem listing_prints_sorted_and_returns_listed
    (api_key : pyval) (models : list gemini_model) :
  truthy api_key = true ->
  let run := list_gemini_models true (Models models) api_key in
  result run = inr (Some (rag_models models))
  /\ exists shown,
       output run =
         ([ (Stdout, "[INFO] Fetching available Gemini models...");
            (Stdout, LF ++ "[INFO] Found models suitable for RAG (use with --rag_model):") ]%string
          ++ map (fun n => (Stdout, "- " ++ n)%string) shown
          ++ [ (Stdout, LF ++ "Example: --rag_model gemini/models/gemini-1.5-flash")%string ])%list
       /\ Permutation (rag_models models) shown
       /\ Sorted (fun x y => String.leb x y = true) shown.
Proof.
  intros Hkey run. subst run. unfold list_gemini_models.
  rewrite Hkey. cbn [negb]. cbv zeta. unfold print at 1 2 4.
  rewrite for_each_print. split; [reflexivity |].
  exists (StringSort.sort (rag_models models)). split; [reflexivity |]. split.
  - apply StringSort.Permuted_sort.
  - exact (StringSort.Sorted_sort (rag_models models)).
Qed.

Lemma listing_prints_sorted_and_returns_listed_witness :
  result (list_gemini_models true
            (Models [ {| name := "models/b"; supported_generation_methods := ["generateContent"] |};
                      {| name := "models/e"; supported_generation_methods := ["embedContent"] |};
                      {| name := "models/a"; supported_generation_methods := ["countTokens"; "generateContent"] |} ])
            (PStr "k"))
  = inr (Some ["gemini/models/b"; "gemini/models/a"])
  /\ exists shown,
       output (list_gemini_models true
            (Models [ {| name := "models/b"; supported_generation_methods := ["generateContent"] |};
                      {| name := "models/e"; supported_generation_methods := ["embedContent"] |};
                      {| name := "models/a"; supported_generation_methods := ["countTokens"; "generateContent"] |} ])
            (PStr "k")) =
         ([ (Stdout, "[INFO] Fetching available Gemini models...");
            (Stdout, LF ++ "[INFO] Found models suitable for RAG (use with --rag_model):") ]%string
          ++ map (fun n => (Stdout, "- " ++ n)%string) shown
          ++ [ (Stdout, LF ++ "Example: --rag_model gemini/models/gemini-1.5-flash")%string ])%list
       /\ Permutation ["gemini/models/b"; "gemini/models/a"] shown
       /\ Sorted (fun x y => String.leb x y = true) shown.
Proof.
  apply (listing_prints_sorted_and_returns_listed (PStr "k")
           [ {| name := "models/b"; supported_generation_methods := ["generateContent"] |};
             {| name := "models/e"; supported_generation_methods := ["embedContent"] |};
             {| name := "models/a";
                supported_generation_methods := ["countTokens"; "generateContent"] |} ]).
  reflexivity.
Defined.

(** X20.  [list_gemini_models] never raises.  It returns [None] exactly
    when the library is missing, the key is false in a condition, or the
    client raised; it then prints a diagnostic on the error stream, and
    prints nothing on the error stream when it returns a list. *)
Theorem listing_returns_none_iff
    (GEMINI_AVAILABLE : bool) (api : api_outcome) (api_key : pyval) :
  let run := list_gemini_models GEMINI_AVAILABLE api api_key in
  (exists r, result run = inr r)
  /\ (result run = inr None <->
      GEMINI_AVAILABLE = false \/ truthy api_key = false
      \/ (forall models, api <> Models models))
  /\ (result run = inr None -> existsb (on_stream Stderr) (output run) = true)
  /\ (forall names, result run = inr (Some names) ->
                    existsb (on_stream Stderr) (output run) = false).
Proof.
  intros run. subst run. unfold list_gemini_models.
  destruct GEMINI_AVAILABLE; cbn [negb].
  2:{ repeat split; try (now eexists); try (now left); discriminate. }
  destruct (truthy api_key); cbn [negb].
  2:{ repeat split; try (now eexists); try (now right; left); discriminate. }
  destruct api as [e | e | ms].
  - repeat split; try (now eexists); try discriminate.
    intros _. right. right. discriminate.
  - repeat split; try (now eexists); try discriminate.
    intros _. right. right. discriminate.
  - cbv zeta. unfold print. rewrite for_each_print.
    split; [now eexists |]. split; [| split].
    + split; [discriminate |].
      intros [H | [H | H]]; try discriminate. now destruct (H ms).
    + discriminate.
    + intros names _. cbn [output fst bind emit ret app].
      unfold bind, emit, ret, output. cbn [fst snd app existsb on_stream orb].
      rewrite existsb_app. cbn [existsb on_stream fst orb].
      rewrite orb_false_r.
      induction (StringSort.sort (rag_models ms)) as [| x l IH]; [reflexivity |].
      exact IH.
Qed.

Lemma list_gemini_models_returns
    (GEMINI_AVAILABLE : bool) (api : api_outcome) (api_key : pyval) :
  exists r, result (list_gemini_models GEMINI_AVAILABLE api api_key) = inr r.
Proof.
  unfold list_gemini_models.
  destruct GEMINI_AVAILABLE; cbn [negb]; [| now eexists].
  destruct (truthy api_key); cbn [negb]; [| now eexists].
  destruct api as [e | e | ms]; try (now eexists).
  cbv zeta. unfold print. rewrite for_each_print. now eexists.
Qed.

(** X21.  Before the search session, [main] reads the Gemini key from the
    loaded configuration first: when that raises, [main] ends with
    [AttributeError] whatever model was asked for.  Otherwise, with
    "--rag_model gemini" it lists the models and exits with status 0, also
    when the listing failed; with any other model it goes on to the session
    with the configuration and the key. *)
Theorem main_before_session_outcomes
    (is_file : bool) (loaded : load_outcome) (GEMINI_AVAILABLE : bool)
    (api : api_outcome) (config_path rag_model : string) (config : pyval) :
  result (load_config is_file loaded config_path) = inr config ->
  let run := main_before_session is_file loaded GEMINI_AVAILABLE api
               config_path rag_model in
  (forall e, result (gemini_api_key (E:=printed) config) = inl e ->
             result run = inl AttributeError)
  /\ (forall key, result (gemini_api_key (E:=printed) config) = inr key ->
        result run =
          inr (if String.eqb rag_model "gemini" then Exit 0 else Session config key)).
Proof.
  intros Hload run. subst run. unfold main_before_session.
  rewrite result_bind, Hload, result_bind. split.
  - intros e He. rewrite He. f_equal.
    revert He. unfold gemini_api_key.
    destruct config as [| | | | c]; try (cbv; congruence).
    cbn [as_dict]. rewrite bind_ret_l.
    destruct (get_default c "gemini" (PDict [])); cbv; congruence.
  - intros key Hkey. rewrite Hkey.
    destruct (String.eqb rag_model "gemini"); [| reflexivity].
    rewrite result_bind. unfold print at 1. cbn [result emit snd].
    rewrite result_bind.
    now destruct (list_gemini_models_returns GEMINI_AVAILABLE api key) as (r & ->).
Qed.

Lemma main_before_session_outcomes_witness :
  (forall e, result (gemini_api_key (E:=printed) (PDict [])) = inl e ->
             result (main_before_session false (Loaded PNone) false (ListError "x")
                       "config.yaml" "gemini") = inl AttributeError)
  /\ (forall key, result (gemini_api_key (E:=printed) (PDict [])) = inr key ->
        result (main_before_session false (Loaded PNone) false (ListError "x")
                  "config.yaml" "gemini") =
          inr (if String.eqb "gemini" "gemini" then Exit 0 else Session (PDict []) key)).
Proof.
  apply (main_before_session_outcomes false (Loaded PNone) false (ListError "x")
           "config.yaml" "gemini" (PDict [])).
  reflexivity.
Defined.

(** * An absolute query identifier *)

(** X22.  When the query identifier starts with a slash, the configured
    base directory plays no part: the directory asked for is the
    identifier itself, and two calls that differ only in the base directory
    make the same calls to the operating system and return the same
    path. *)
Theorem absolute_query_id_ignores_base_dir
    (B B' query_id enhanced_query : string) (web_results local_results : list pydict)
    (final_answer : string) (config config' : pydict)
    (grouped : option (list (string * list pydict)))
    (previous follow_up : option string) :
  startswith "/" query_id = true ->
  get_default config "results_base_dir" (PStr "results") = PStr B ->
  get_default config' "results_base_dir" (PStr "results") = PStr B' ->
  aggregate_results query_id enhanced_query web_results local_results final_answer
    config grouped previous follow_up
  = aggregate_results query_id enhanced_query web_results local_results final_answer
      config' grouped previous follow_up
  /\ exists rest,
       output (aggregate_results query_id enhanced_query web_results local_results
                 final_answer config grouped previous follow_up)
       = Makedirs query_id true :: rest.
Proof.
  intros Habs Hc Hc'.
  assert (Hjoin : forall b, os_path_join b query_id = query_id).
  { intros b. unfold os_path_join. now rewrite Habs. }
  unfold aggregate_results. rewrite Hc, Hc'. cbn [as_path].
  rewrite !bind_ret_l. cbv zeta. rewrite !Hjoin. split; [reflexivity |].
  rewrite bind_emit. eexists. reflexivity.
Qed.

Lemma absolute_query_id_ignores_base_dir_witness :
  aggregate_results "/abs" "why" [] [] "42" [] None None None
  = aggregate_results "/abs" "why" [] [] "42" [("results_base_dir", PStr "out")]
      None None None
  /\ exists rest,
       output (aggregate_results "/abs" "why" [] [] "42" [] None None None)
       = Makedirs "/abs" true :: rest.
Proof.
  apply (absolute_query_id_ignores_base_dir "results" "out" "/abs" "why" [] [] "42"
           [] [("results_base_dir", PStr "out")] None None None).
  - reflexivity.
  - reflexivity.
  - reflexivity.
Defined.
